(** * recipe_app: a shallow embedding of [app.py]

    The development follows the source file top-down:

    - [Py]: the fragment of Python's dynamic values the application
      touches (decoded JSON, truthiness, [dict.get], subscripting,
      [str], [lower], [strip], [in]) and an exception monad;
    - [Net]: what [requests.get] can answer;
    - [Providers]: the three recipe clients and the fallback catalog;
    - [Recommend]: random recipes and the weather/region recommendation;
    - [Related]: the related-searches ranking;
    - [Ledger]: the like/save toggle of [/interact] with its session
      guard and its unit of work;
    - [Uploads]: the test on upload file names;
    - [History]: the search log written by [index] and [/api/suggest];
    - [Catalogs]: the recipe tables of the detail and profile views;
    - [Detail]: the ingredient lines of a TheMealDB recipe;
    - [Weather]: the two weather clients and [/api/weather_by_coords];
    - [Suggest]: the [/api/suggest] endpoint.

    Definitions come first; the theorems follow in [PyFacts],
    [ProvidersFacts], [RecommendFacts], [RelatedFacts], [LedgerFacts],
    [UploadsFacts], [HistoryFacts], [RegionalFacts], [RecommendMore],
    [LedgerMore], [DetailFacts], [WeatherFacts] and [SuggestFacts]. *)

From Stdlib Require Import String Ascii ZArith List Bool Lia QArith Sorted Permutation.
From stdpp Require Import base option list gmap strings pretty sorting.

Local Open Scope string_scope.
Local Open Scope Z_scope.
Local Close Scope Q_scope.

(* ===================================================================== *)
(** * Python values and exceptions *)
(* ===================================================================== *)

Module Py.

(** A decoded JSON document, as [response.json()] hands it to the code.
    A [dict] is kept as an association list in insertion order; a
    lookup takes the first binding of a key (Python dicts have unique
    keys).  Numbers are the integers: no modelled code path computes
    with a fractional JSON number. *)
#[local] Set Warnings "-register-all".
Inductive json : Type :=
| JNull
| JBool (b : bool)
| JNum (n : Z)
| JStr (s : string)
| JArr (xs : list json)
| JObj (kvs : list (string * json)).

(** The exception classes that can reach the modelled code.
    [JSONDecodeError] is what [response.json()] raises on an
    undecodable body: always a [ValueError]; whether it is also a
    [requests.RequestException] depends on the installed [requests]
    (it is from 2.27 on), so the exception carries that bit.
    [SQLAlchemyError] stands for whatever the storage layer raises. *)
Inductive exn : Type :=
| KeyError (key : string)
| TypeError
| AttributeError
| JSONDecodeError (is_request_exception : bool)
| RequestException
| SQLAlchemyError.

Definition isinstance_RequestException (e : exn) : bool :=
  match e with
  | RequestException => true
  | JSONDecodeError b => b
  | _ => false
  end.

Definition isinstance_ValueError (e : exn) : bool :=
  match e with
  | JSONDecodeError _ => true
  | _ => false
  end.

(** Every [except Exception] clause of the source catches all of them. *)
Definition isinstance_Exception (e : exn) : bool := true.

(** ** The exception monad *)

Inductive result (A : Type) : Type :=
| Ok (a : A)
| Raise (e : exn).
Arguments Ok {A} a.
Arguments Raise {A} e.

#[global] Instance result_ret : MRet result := fun _ a => Ok a.
#[global] Instance result_bind : MBind result := fun _ _ f m =>
  match m with
  | Ok a => f a
  | Raise e => Raise e
  end.

(** [try: m  except cls: handler] *)
Definition try_except {A} (m : result A) (cls : exn -> bool)
    (handler : exn -> result A) : result A :=
  match m with
  | Ok a => Ok a
  | Raise e => if cls e then handler e else Raise e
  end.

(** A list comprehension / [for] loop whose body may raise: elements are
    visited left to right and the first exception aborts the loop. *)
Fixpoint for_each {A B} (f : A -> result B) (l : list A) : result (list B) :=
  match l with
  | [] => Ok []
  | x :: l' =>
      y ← f x;
      ys ← for_each f l';
      Ok (y :: ys)
  end.

(** [[x for x in l if p(x)]] with a condition that may raise. *)
Fixpoint filter_each {A} (p : A -> result bool) (l : list A) : result (list A) :=
  match l with
  | [] => Ok []
  | x :: l' =>
      b ← p x;
      xs ← filter_each p l';
      Ok (if (b : bool) then x :: xs else xs)
  end.

(** ** Strings *)

(** [str.lower()]: exact on ASCII text; bytes outside [A-Z] are kept. *)
Definition lower_ascii (c : ascii) : ascii :=
  let n := nat_of_ascii c in
  if ((65 <=? n)%nat && (n <=? 90)%nat)%bool then ascii_of_nat (n + 32) else c.

Fixpoint lower (s : string) : string :=
  match s with
  | EmptyString => EmptyString
  | String c s' => String (lower_ascii c) (lower s')
  end.

(** The ASCII characters [str.strip()] removes: tab, line feed, vertical
    tab, form feed, carriage return, the four separators 28-31, space. *)
Definition is_space (c : ascii) : bool :=
  let n := nat_of_ascii c in
  ((9 <=? n)%nat && (n <=? 13)%nat || (28 <=? n)%nat && (n <=? 31)%nat
   || (n =? 32)%nat)%bool.

Fixpoint lstrip (s : string) : string :=
  match s with
  | EmptyString => EmptyString
  | String c s' => if is_space c then lstrip s' else s
  end.

(** Drops trailing white space: a character is kept when it is not a
    space or when something is kept after it. *)
Fixpoint rstrip (s : string) : string :=
  match s with
  | EmptyString => EmptyString
  | String c s' =>
      match rstrip s' with
      | EmptyString => if is_space c then EmptyString else String c EmptyString
      | r => String c r
      end
  end.

Definition strip (s : string) : string := rstrip (lstrip s).

(** [needle in hay] on strings: [needle] occurs as a contiguous run. *)
Fixpoint str_in (needle hay : string) : bool :=
  match hay with
  | EmptyString => String.prefix needle EmptyString
  | String _ hay' => String.prefix needle hay || str_in needle hay'
  end.

(** ** Truthiness, subscripting, [dict.get], iteration *)

Definition truthy (v : json) : bool :=
  match v with
  | JNull => false
  | JBool b => b
  | JNum n => negb (n =? 0)
  | JStr s => negb (String.eqb s "")
  | JArr xs => match xs with [] => false | _ => true end
  | JObj kvs => match kvs with [] => false | _ => true end
  end.

Fixpoint assoc (k : string) (kvs : list (string * json)) : option json :=
  match kvs with
  | [] => None
  | (k', v) :: kvs' => if String.eqb k k' then Some v else assoc k kvs'
  end.

Definition isinstance_dict (v : json) : bool :=
  match v with JObj _ => true | _ => false end.

(** [k in r] for a dict [r] (only used behind [isinstance(r, dict)]). *)
Definition has_key (k : string) (r : json) : bool :=
  match r with
  | JObj kvs => match assoc k kvs with Some _ => true | None => false end
  | _ => false
  end.

(** [r[k]] with a string key: a dict answers or raises [KeyError]; a
    list, a string, a number, a boolean and [None] raise [TypeError]. *)
Definition getitem (r : json) (k : string) : result json :=
  match r with
  | JObj kvs => match assoc k kvs with Some v => Ok v | None => Raise (KeyError k) end
  | _ => Raise TypeError
  end.

(** [r.get(k, default)]: only a dict has the method. *)
Definition get (r : json) (k : string) (dflt : json) : result json :=
  match r with
  | JObj kvs => Ok (default dflt (assoc k kvs))
  | _ => Raise AttributeError
  end.

(** [for x in v]: a list yields its elements, a dict its keys, a string
    its characters; nothing else is iterable. *)
Definition iter (v : json) : result (list json) :=
  match v with
  | JArr xs => Ok xs
  | JObj kvs => Ok (map (fun kv => JStr (fst kv)) kvs)
  | JStr s => Ok (map (fun c => JStr (String c EmptyString)) (list_ascii_of_string s))
  | _ => Raise TypeError
  end.

(** [v.lower()]: only a string has the method. *)
Definition lower_method (v : json) : result string :=
  match v with
  | JStr s => Ok (lower s)
  | _ => Raise AttributeError
  end.

(** ** [str] and [repr] *)

Definition squote : ascii := "'"%char.
Definition dquote : ascii := "034"%char.
Definition backslash : ascii := "\"%char.

Definition hex_digit (n : nat) : ascii :=
  nth n (list_ascii_of_string "0123456789abcdef") "0"%char.

(** One character of [repr(s)] inside the quote [q].  Bytes from 128 on
    are kept: they are the UTF-8 bytes of printable text. *)
Definition repr_char (q c : ascii) : string :=
  let n := nat_of_ascii c in
  if Ascii.eqb c backslash then String backslash (String backslash "")
  else if Ascii.eqb c q then String backslash (String q "")
  else if (n =? 10)%nat then String backslash "n"
  else if (n =? 13)%nat then String backslash "r"
  else if (n =? 9)%nat then String backslash "t"
  else if ((n <? 32)%nat || (n =? 127)%nat)%bool then
    String backslash
      (String "x" (String (hex_digit (n / 16)) (String (hex_digit (n mod 16)) "")))
  else String c "".

(** [repr] of a string: single quotes, unless the text has a single
    quote and no double quote. *)
Definition repr_str (s : string) : string :=
  let cs := list_ascii_of_string s in
  let q := if (existsb (Ascii.eqb squote) cs
               && negb (existsb (Ascii.eqb dquote) cs))%bool
           then dquote else squote in
  String q (fold_right (fun c acc => repr_char q c ++ acc) (String q "") cs).

Fixpoint repr (v : json) : string :=
  match v with
  | JNull => "None"
  | JBool true => "True"
  | JBool false => "False"
  | JNum n => pretty n
  | JStr s => repr_str s
  | JArr xs => "[" ++ String.concat ", " (map repr xs) ++ "]"
  | JObj kvs =>
      "{" ++ String.concat ", "
               (map (fun kv => repr_str (fst kv) ++ ": " ++ repr (snd kv)) kvs)
          ++ "}"
  end.

(** [str(v)]: a string is itself, anything else prints as its [repr]. *)
Definition str (v : json) : string :=
  match v with
  | JStr s => s
  | _ => repr v
  end.

End Py.

(* ===================================================================== *)
(** * The network *)
(* ===================================================================== *)

Module Net.
Import Py.

(** The body of an answer: [response.json()] decodes it or raises. *)
Inductive body : Type :=
| Decoded (data : json)
| Undecodable (is_request_exception : bool).

Record reply : Type := { status_code : Z; content : body }.

(** What [requests.get(url, timeout=5)] does: it returns an answer, or
    raises a [RequestException] (connection error, timeout, ...). *)
Inductive response : Type :=
| Answered (r : reply)
| TransportError.

(** The requests the application sends.  A parameter the source adds
    only when it is truthy ([max_time], [diet]) is [None] otherwise. *)
Inductive request : Type :=
| SpoonacularComplexSearch (query : string) (number : nat)
    (maxReadyTime diet : option string)
| SpoonacularFindByIngredients (ingredients : string) (number : nat)
    (maxReadyTime diet : option string)
| TheMealDBSearch (s : string).

(** The outside world, as far as recipes go: one answer per request
    (the clients are memoized, so a repeated request within a call sees
    the same answer). *)
Definition http : Type := request -> response.

Definition requests_get (net : http) (rq : request) : result reply :=
  match net rq with
  | Answered r => Ok r
  | TransportError => Raise RequestException
  end.

Definition response_json (r : reply) : result json :=
  match content r with
  | Decoded data => Ok data
  | Undecodable b => Raise (JSONDecodeError b)
  end.

End Net.

(* ===================================================================== *)
(** * Provider clients and the fallback catalog *)
(* ===================================================================== *)

Module Providers.
Import Py Net.

(** The normalized recipe every client returns: the dict
    [{"id", "title", "source", "image"}].  [id] is always a Python
    string; [title] and [image] are whatever the provider sent. *)
Record recipe : Type := {
  recipe_id : string;
  recipe_title : json;
  recipe_source : string;
  recipe_image : json
}.

Definition placeholder : string := "/static/assets/default_recipe.jpg".

(** [if max_time: params["maxReadyTime"] = max_time] *)
Definition only_if_truthy (o : option string) : option string :=
  match o with
  | Some s => if String.eqb s "" then None else Some s
  | None => None
  end.

(** ** Spoonacular *)

(** One element of the comprehension of both Spoonacular clients:
    [{"id": str(r["id"]), "title": r["title"], "source": "spoonacular",
      "image": r.get("image", "/static/assets/default_recipe.jpg")}] *)
Definition spoonacular_record (r : json) : result recipe :=
  i ← getitem r "id";
  t ← getitem r "title";
  img ← get r "image" (JStr placeholder);
  Ok {| recipe_id := str i; recipe_title := t;
        recipe_source := "spoonacular"; recipe_image := img |}.

Definition suggest_western_recipes_by_name (net : http) (query : string)
    (number : nat) (max_time diet : option string) : result (list recipe) :=
  try_except
    (response ← requests_get net
        (SpoonacularComplexSearch query number
           (only_if_truthy max_time) (only_if_truthy diet));
     if negb (status_code response =? 200) then Ok []
     else
       data ← response_json response;
       results_v ← get data "results" (JArr []);
       results ← iter results_v;
       for_each spoonacular_record results)
    isinstance_RequestException
    (fun _ => Ok []).

Definition suggest_western_recipes_by_ingredients (net : http)
    (ingredients : list string) (number : nat) (max_time diet : option string)
    : result (list recipe) :=
  try_except
    (response ← requests_get net
        (SpoonacularFindByIngredients (String.concat "," ingredients) number
           (only_if_truthy max_time) (only_if_truthy diet));
     if negb (status_code response =? 200) then Ok []
     else
       data ← response_json response;
       results ← iter data;
       for_each spoonacular_record results)
    isinstance_RequestException
    (fun _ => Ok []).

(** ** The fallback catalog *)

(** The six dict literals of [fallback_recipes] all have the same seven
    keys; ["source"] is ["fallback"] in each. *)
Record fallback_recipe : Type := {
  fb_id : string;
  fb_title : string;
  fb_image : string;
  fb_region : string;
  fb_ingredients : list string;
  fb_instructions : string
}.

(** A catalog entry as the dict it is in the source, for the code that
    handles it together with provider records. *)
Definition as_dict (r : fallback_recipe) : json :=
  JObj [ ("id", JStr (fb_id r));
         ("title", JStr (fb_title r));
         ("source", JStr "fallback");
         ("image", JStr (fb_image r));
         ("region", JStr (fb_region r));
         ("ingredients", JArr (map JStr (fb_ingredients r)));
         ("instructions", JStr (fb_instructions r)) ].

Definition fallback_rendang : fallback_recipe :=
  {| fb_id := "rendang";
     fb_title := "Beef Rendang";
     fb_image := "https://www.themealdb.com/images/media/meals/ypxrvg1515362401.jpg";
     fb_region := "Sumatra";
     fb_ingredients :=
       [ "500g beef";
         "400ml coconut milk";
         "2 lemongrass stalks";
         "5 kaffir lime leaves";
         "2 turmeric leaves";
         "10 shallots";
         "5 garlic cloves";
         "5 red chilies";
         "1 inch ginger";
         "1 inch galangal";
         "1 tsp turmeric powder";
         "Salt to taste" ];
     fb_instructions :=
       "Blend shallots, garlic, chilies, ginger, galangal, and turmeric into a paste. Cook the paste with lemongrass, lime leaves, and turmeric leaves until fragrant. Add beef and coconut milk, simmer for 3-4 hours until the sauce thickens and the beef is tender. Season with salt." |}.

Definition fallback_soto : fallback_recipe :=
  {| fb_id := "soto";
     fb_title := "Soto Ayam";
     fb_image := "https://www.themealdb.com/images/media/meals/8mpqzz1508507655.jpg";
     fb_region := "Java";
     fb_ingredients :=
       [ "500g chicken";
         "2L water";
         "2 lemongrass stalks";
         "3 kaffir lime leaves";
         "2 bay leaves";
         "5 shallots";
         "3 garlic cloves";
         "1 inch ginger";
         "1 tsp turmeric powder";
         "1 tsp coriander powder";
         "Salt to taste";
         "Vermicelli noodles";
         "Boiled eggs";
         "Lime wedges" ];
     fb_instructions :=
       "Boil chicken in water with lemongrass, lime leaves, and bay leaves. Blend shallots, garlic, ginger, turmeric, and coriander into a paste. Sauté the paste until fragrant, then add to the broth. Simmer for 30 minutes. Shred the chicken. Serve with vermicelli, boiled eggs, and lime wedges." |}.

Definition fallback_gudeg : fallback_recipe :=
  {| fb_id := "gudeg";
     fb_title := "Gudeg Jogja";
     fb_image := "https://www.themealdb.com/images/media/meals/1529445893.jpg";
     fb_region := "Java";
     fb_ingredients :=
       [ "1kg young jackfruit";
         "500ml coconut milk";
         "200g palm sugar";
         "5 shallots";
         "3 garlic cloves";
         "5 candlenuts";
         "1 tsp coriander powder";
         "2 bay leaves";
         "2 teak leaves";
         "Salt to taste" ];
     fb_instructions :=
       "Boil jackfruit until tender. Blend shallots, garlic, candlenuts, and coriander into a paste. Cook the paste with coconut milk, palm sugar, bay leaves, teak leaves, and jackfruit. Simmer for 4-5 hours until the jackfruit is soft and the sauce thickens. Season with salt." |}.

Definition fallback_satay : fallback_recipe :=
  {| fb_id := "satay";
     fb_title := "Chicken Satay";
     fb_image := "https://www.themealdb.com/images/media/meals/1526418975.jpg";
     fb_region := "Java";
     fb_ingredients :=
       [ "500g chicken";
         "2 tbsp soy sauce";
         "2 tbsp peanut butter";
         "1 tbsp lime juice";
         "5 shallots";
         "3 garlic cloves";
         "1 tsp turmeric powder";
         "1 tsp coriander powder";
         "Skewers" ];
     fb_instructions :=
       "Blend shallots, garlic, turmeric, and coriander into a paste. Marinate chicken with the paste, soy sauce, peanut butter, and lime juice for 1 hour. Skewer the chicken and grill until cooked. Serve with peanut sauce." |}.

Definition fallback_nasi_goreng : fallback_recipe :=
  {| fb_id := "nasi_goreng";
     fb_title := "Nasi Goreng";
     fb_image := "https://www.themealdb.com/images/media/meals/1529445893.jpg";
     fb_region := "Java";
     fb_ingredients :=
       [ "2 cups cooked rice";
         "100g chicken";
         "2 eggs";
         "5 shallots";
         "3 garlic cloves";
         "2 red chilies";
         "1 tbsp soy sauce";
         "1 tbsp sweet soy sauce";
         "Salt to taste";
         "Fried shallots" ];
     fb_instructions :=
       "Blend shallots, garlic, and chilies into a paste. Sauté the paste until fragrant. Add chicken and cook until done. Push to the side, scramble the eggs. Add rice, soy sauce, sweet soy sauce, and salt. Stir-fry until mixed. Garnish with fried shallots." |}.

Definition fallback_soto_banjar : fallback_recipe :=
  {| fb_id := "soto_banjar";
     fb_title := "Soto Banjar";
     fb_image := "https://www.themealdb.com/images/media/meals/8mpqzz1508507655.jpg";
     fb_region := "Kalimantan Selatan";
     fb_ingredients :=
       [ "500g chicken";
         "2L water";
         "2 lemongrass stalks";
         "3 kaffir lime leaves";
         "2 cloves";
         "2 star anise";
         "5 shallots";
         "3 garlic cloves";
         "1 inch ginger";
         "1 tsp turmeric powder";
         "Salt to taste";
         "Rice cakes";
         "Boiled eggs" ];
     fb_instructions :=
       "Boil chicken with lemongrass, lime leaves, cloves, and star anise. Blend shallots, garlic, ginger, and turmeric into a paste. Sauté the paste until fragrant, then add to the broth. Simmer for 30 minutes. Shred the chicken. Serve with rice cakes and boiled eggs." |}.

Definition fallback_recipes : list fallback_recipe :=
  [ fallback_rendang;
    fallback_soto;
    fallback_gudeg;
    fallback_satay;
    fallback_nasi_goreng;
    fallback_soto_banjar ].

(** ** TheMealDB, region-aware *)

(** [base_query in recipe["title"].lower()] *)
Definition fallback_match (base_query : string) (r : fallback_recipe) : bool :=
  str_in base_query (lower (fb_title r)).

(** The dict built from a catalog entry at lines 283-291 and 297-305:
    [{"id": r["id"], "title": r["title"], "source": "fallback",
      "image": r["image"] if r["image"] else placeholder}] *)
Definition fallback_format (r : fallback_recipe) : recipe :=
  {| recipe_id := fb_id r;
     recipe_title := JStr (fb_title r);
     recipe_source := "fallback";
     recipe_image := if truthy (JStr (fb_image r)) then JStr (fb_image r)
                     else JStr placeholder |}.

(** [[fallback_format(r) for r in fallback_recipes
       if base_query in r["title"].lower()][:number]] *)
Definition fallback_by_title (base_query : string) (number : nat) : list recipe :=
  take number (map fallback_format
                 (List.filter (fallback_match base_query) fallback_recipes)).

(** [region and region != "All Regions"]: the region to filter by. *)
Definition region_filter (region : option string) : option string :=
  match region with
  | Some s =>
      if (negb (String.eqb s "") && negb (String.eqb s "All Regions"))%bool
      then Some s else None
  | None => None
  end.

(** [(region.lower() in r.get(k, "").lower() if isinstance(r, dict) else False)] *)
Definition field_contains (region : string) (r : json) (k : string) : result bool :=
  if isinstance_dict r then
    v ← get r k (JStr "");
    s ← lower_method v;
    Ok (str_in (lower region) s)
  else Ok false.

(** [(r.get("region", "").lower() == region.lower() if isinstance(r, dict) else False)] *)
Definition region_equals (region : string) (r : json) : result bool :=
  if isinstance_dict r then
    v ← get r "region" (JStr "");
    s ← lower_method v;
    Ok (String.eqb s (lower region))
  else Ok false.

(** The condition of the region comprehension: four tests joined by
    [or], evaluated left to right until one holds. *)
Definition region_matches (region : string) (r : json) : result bool :=
  a ← field_contains region r "strArea";
  if (a : bool) then Ok true else
  b ← field_contains region r "strCategory";
  if (b : bool) then Ok true else
  c ← field_contains region r "strMeal";
  if (c : bool) then Ok true else
  region_equals region r.

(** One element of [formatted_results] (lines 270-278). *)
Definition format_result (r : json) : result recipe :=
  i ← (if (isinstance_dict r && has_key "idMeal" r)%bool
       then getitem r "idMeal" else getitem r "id");
  t ← (if (isinstance_dict r && has_key "strMeal" r)%bool
       then getitem r "strMeal" else getitem r "title");
  let src := if (isinstance_dict r && has_key "idMeal" r)%bool
             then "themealdb" else "fallback" in
  thumb ← (if (isinstance_dict r && has_key "strMealThumb" r)%bool
           then v ← getitem r "strMealThumb"; Ok (truthy v)
           else Ok false);
  img ← (if (thumb : bool) then getitem r "strMealThumb"
         else
           generic ← (if isinstance_dict r
                      then v ← get r "image" JNull; Ok (truthy v)
                      else Ok false);
           if (generic : bool) then getitem r "image" else Ok (JStr placeholder));
  Ok {| recipe_id := str i; recipe_title := t;
        recipe_source := src; recipe_image := img |}.

(** Lines 221-235: the value bound to [results] once the answer is read.
    The inner [try] only guards [response.json()] and the two lines
    after it. *)
Definition read_meals (response : reply) : result json :=
  if negb (status_code response =? 200) then Ok (JArr [])
  else
    try_except
      (data ← response_json response;
       if negb (isinstance_dict data) then Ok (JArr [])
       else
         meals ← get data "meals" (JArr []);
         Ok (if truthy meals then meals else JArr []))
      isinstance_ValueError
      (fun _ => Ok (JArr [])).

(** Lines 246-248: the catalog entries that stand in for empty results. *)
Definition catalog_by_title (base_query : string) : list json :=
  map as_dict (List.filter (fallback_match base_query) fallback_recipes).

(** Lines 250-267: the region filter, its own fallback to the catalog,
    and the cut to [number]. *)
Definition filter_by_region (base_query : string) (region : option string)
    (number : nat) (results : list json) : result (list json) :=
  match region_filter region with
  | Some rg =>
      filtered ← filter_each (region_matches rg) results;
      let filtered :=
        match filtered with
        | [] =>
            map as_dict
              (List.filter
                 (fun r => (fallback_match base_query r
                            && String.eqb (lower (fb_region r)) (lower rg))%bool)
                 fallback_recipes)
        | _ => filtered
        end in
      Ok (take number filtered)
  | None => Ok (take number results)
  end.

(** Lines 269-293: the formatted results, or the catalog by title when
    there are none. *)
Definition format_results (base_query : string) (number : nat)
    (results : list json) : result (list recipe) :=
  formatted ← for_each format_result results;
  match formatted with
  | [] => Ok (fallback_by_title base_query number)
  | _ => Ok formatted
  end.

Definition suggest_indonesian_recipes_by_name (net : http) (query : string)
    (region : option string) (number : nat) : result (list recipe) :=
  let base_query := lower (strip query) in
  try_except
    (response ← requests_get net (TheMealDBSearch base_query);
     results_v ← read_meals response;
     (* if results is None: results = [] *)
     let results_v := match results_v with JNull => JArr [] | v => v end in
     (* for meal in results: if not meal.get("strMealThumb"): log *)
     meals ← iter results_v;
     _ ← for_each (fun meal => get meal "strMealThumb" JNull) meals;
     (* if not results: fall back to the catalog, by title *)
     let results :=
       if negb (truthy results_v) then catalog_by_title base_query else meals in
     results ← filter_by_region base_query region number results;
     format_results base_query number results)
    isinstance_RequestException
    (fun _ => Ok (fallback_by_title base_query number)).

(** ** Vocabulary of the statements about the clients *)

(** A provider record the comprehension accepts: an object with the
    keys [id] and [title]. *)
Definition record_ok (r : json) : bool := (has_key "id" r && has_key "title" r)%bool.

Definition failed (resp : response) : bool :=
  match resp with
  | TransportError => true
  | Answered r => negb (status_code r =? 200)
  end.

(** The answers on which [suggest_western_recipes_by_name] returns. *)
Definition expected_by_name (resp : response) : bool :=
  match resp with
  | TransportError => true
  | Answered r =>
      if negb (status_code r =? 200) then true
      else match content r with
           | Undecodable b => b
           | Decoded data =>
               match get data "results" (JArr []) ≫= iter with
               | Ok items => forallb record_ok items
               | Raise _ => false
               end
           end
  end.

(** The answers on which [suggest_western_recipes_by_ingredients] returns. *)
Definition expected_by_ingredients (resp : response) : bool :=
  match resp with
  | TransportError => true
  | Answered r =>
      if negb (status_code r =? 200) then true
      else match content r with
           | Undecodable b => b
           | Decoded data =>
               match iter data with
               | Ok items => forallb record_ok items
               | Raise _ => false
               end
           end
  end.

(** The answer carries nothing to show: [results] is empty once it is
    read (non-200, undecodable body, a body that is not an object, no
    [meals], or a falsy [meals]). *)
Definition no_usable_results (resp : response) : bool :=
  match resp with
  | Answered r =>
      match read_meals r with
      | Ok v => negb (truthy v)
      | Raise _ => false
      end
  | TransportError => false
  end.

(** The catalog entries of a region, compared case-insensitively. *)
Definition in_region (region : string) (r : fallback_recipe) : bool :=
  String.eqb (lower (fb_region r)) (lower region).

(** The record with an empty image Spoonacular may send. *)
Definition empty_image_answer : http := fun _ =>
  Answered {| status_code := 200;
              content := Decoded (JObj [("results",
                JArr [JObj [("id", JNum 7); ("title", JStr "Soup"); ("image", JStr "")]])]) |}.


End Providers.

(* ===================================================================== *)
(** * Random recipes and the weather/region recommendation *)
(* ===================================================================== *)

Module Recommend.
Import Py Net Providers.

(** A row of the [UserRecipe] table (the columns the modelled code reads
    or writes). *)
Record UserRecipe : Type := {
  ur_id : Z;
  ur_title : string;
  ur_image : option string;
  ur_likes : Z;
  ur_saves : Z
}.

(** [{"id": str(r.id), "title": r.title, "source": "user",
      "image": r.image or "/static/assets/default_recipe.jpg"}] *)
Definition user_format (r : UserRecipe) : recipe :=
  {| recipe_id := pretty (ur_id r);
     recipe_title := JStr (ur_title r);
     recipe_source := "user";
     recipe_image :=
       match ur_image r with
       | Some s => if String.eqb s "" then JStr placeholder else JStr s
       | None => JStr placeholder
       end |}.

(** [random.sample(population, k)]: [k] elements at distinct positions,
    in the order they are drawn.  The generator is a source of draws;
    the [i]-th draw left picks a position among the elements left.
    The source only asks for [k <= len(population)]; Python raises on a
    larger [k], where this function returns what there is. *)
Fixpoint sample {A} (rnd : nat -> nat) (population : list A) (k : nat) : list A :=
  match k with
  | O => []
  | S k' =>
      let j := (rnd k' mod length population)%nat in
      match population !! j with
      | Some x => x :: sample rnd (delete j population) k'
      | None => []
      end
  end.

(** What a recommendation request can see besides its arguments. *)
Record world : Type := {
  net : http;
  user_recipes : list UserRecipe;
  rnd : nat -> nat
}.

(** [all_recipes = western + indo + user_formatted] *)
Definition all_recipes (w : world) (number : nat) : result (list recipe) :=
  western ← suggest_western_recipes_by_name (net w) "main course" number None None;
  indo ← suggest_indonesian_recipes_by_name (net w) "indonesian" None number;
  let user_formatted := map user_format (take number (user_recipes w)) in
  Ok (western ++ indo ++ user_formatted)%list.

Definition get_random_recipes (w : world) (number : nat) : result (list recipe) :=
  all ← all_recipes w number;
  Ok (sample (rnd w) all (min number (length all))).

(** The weather dict of [get_weather]; [temp] is a JSON number, compared
    with the integer thresholds exactly, hence a rational here. *)
Record weather : Type := {
  city : string;
  condition : string;
  temp : Q;
  weather_main : string
}.

Definition Qltb (x y : Q) : bool :=
  match Qcompare x y with Lt => true | _ => false end.

(** The three branches of the weather rule. *)
Inductive branch : Type := Soup | Salad | General.

(** [if "rain" in condition or temp < 20: ... elif temp > 30: ... else: ...] *)
Definition weather_branch (w : weather) : branch :=
  let condition := lower (weather_main w) in
  if (str_in "rain" condition || Qltb (temp w) (inject_Z 20))%bool then Soup
  else if Qltb (inject_Z 30) (temp w) then Salad
  else General.

(** What the chosen branch appends to [recommendations]. *)
Definition weather_candidates (wd : world) (b : branch) (region : option string)
    : result (list recipe) :=
  match b with
  | Soup =>
      western ← suggest_western_recipes_by_name (net wd) "soup" 1 None None;
      indo ← suggest_indonesian_recipes_by_name (net wd) "soto" region 1;
      Ok (western ++ indo)%list
  | Salad =>
      western ← suggest_western_recipes_by_name (net wd) "salad" 1 None None;
      indo ← suggest_indonesian_recipes_by_name (net wd) "rujak" region 1;
      Ok (western ++ indo)%list
  | General => get_random_recipes wd 1
  end.

(** [if region: ...]: the region candidates, for the lower-cased region. *)
Definition region_candidates (wd : world) (region : option string)
    : result (list recipe) :=
  match region with
  | Some s =>
      if String.eqb s "" then Ok []
      else suggest_indonesian_recipes_by_name (net wd) "" (Some (lower s)) 1
  | None => Ok []
  end.

(** [recommendations] as it stands when the uniqueness loop starts. *)
Definition candidates (wd : world) (w : weather) (region : option string)
    : result (list recipe) :=
  first ← weather_candidates wd (weather_branch w) region;
  regional ← region_candidates wd region;
  Ok (first ++ regional)%list.

(** The loop of lines 385-390, with its two accumulators. *)
Fixpoint unique_loop (seen : gset string) (unique_recommendations : list recipe)
    (recommendations : list recipe) : list recipe :=
  match recommendations with
  | [] => unique_recommendations
  | r :: rest =>
      if decide (recipe_id r ∈ seen)
      then unique_loop seen unique_recommendations rest
      else unique_loop ({[recipe_id r]} ∪ seen) (unique_recommendations ++ [r])%list rest
  end.

Definition unique (recommendations : list recipe) : list recipe :=
  unique_loop ∅ [] recommendations.

Definition get_recommendations_based_on_weather_and_region (wd : world)
    (w : option weather) (region : option string) (number : nat)
    : result (list recipe) :=
  match w with
  | None => get_random_recipes wd number
  | Some w =>
      recommendations ← candidates wd w region;
      Ok (take number (unique recommendations))
  end.

(** ** Vocabulary of the statements about recommendations *)

(** The first occurrence of every id, in the order of the list. *)
Fixpoint first_occurrences (l : list recipe) : list recipe :=
  match l with
  | [] => []
  | r :: l' => r :: filter (fun x => recipe_id x <> recipe_id r) (first_occurrences l')
  end.



End Recommend.

(* ===================================================================== *)
(** * Related searches *)
(* ===================================================================== *)

Module Related.
Import Py Recommend.

(** A row of [SearchHistory] (the columns read here); [cuisine] and
    [region] are nullable. *)
Record SearchHistory : Type := {
  sh_query : string;
  sh_cuisine : option string;
  sh_region : option string;
  sh_count : Z
}.

(** The table, or a store whose query raises. *)
Inductive store : Type :=
| Rows (rows : list SearchHistory)
| Unavailable.



















(** ** Vocabulary of the statements about related searches *)




End Related.

(* ===================================================================== *)
(** * The interaction ledger: [/interact] *)
(* ===================================================================== *)

Module Ledger.
Import Py Recommend.

(** A row of the [Interaction] table. *)
Record Interaction : Type := {
  i_id : Z;
  user_id : Z;
  recipe_source : string;
  recipe_id : string;
  interaction_type : string
}.

Record database : Type := {
  interactions : list Interaction;
  recipes : list UserRecipe
}.

(** [db.session]: the unit of work.  [stored] is what the storage holds,
    [pending] is [stored] with the changes of the running request
    ([add], [delete], attribute writes) that [commit] has yet to write. *)
Record unit_of_work : Type := {
  stored : database;
  pending : database
}.

(** What is left between two requests: the storage and the Flask
    session, a dict from keys to values. *)
Record state : Type := {
  db : database;
  session : gmap string json
}.

(** The form of a request and the logged-in user. *)
Record form : Type := {
  current_user : Z;
  source : string;
  recipe : string;
  action : string
}.

(** Where the storage may raise during one request. *)
Record faults : Type := {
  query_fails : bool;
  commit_fails : bool;
  readback_fails : bool
}.

Inductive http_response : Type :=
| Counts (likes saves : Z) (user_liked user_saved : bool)
| TooManyRequests
| NotFound
| ServerError.

(** [f"interact_{current_user.id}_{source}_{recipe_id}_{action}"] *)
Definition session_key (rq : form) : string :=
  "interact_" ++ pretty (current_user rq) ++ "_" ++ source rq ++ "_"
              ++ recipe rq ++ "_" ++ action rq.

(** [session.get(session_key)] as a condition. *)
Definition guard_set (s : gmap string json) (key : string) : bool :=
  match s !! key with
  | Some v => truthy v
  | None => false
  end.

Definition matches (u : Z) (src rid kind : string) (i : Interaction) : bool :=
  ((user_id i =? u) && String.eqb (recipe_source i) src
   && String.eqb (recipe_id i) rid && String.eqb (interaction_type i) kind)%bool.

(** [Interaction.query.filter_by(user_id=..., recipe_source=...,
      recipe_id=..., interaction_type=...).first()] *)
Definition first_interaction (d : database) (u : Z) (src rid kind : string)
    : option Interaction :=
  List.find (matches u src rid kind) (interactions d).

(** [Interaction.query.filter_by(recipe_source=..., recipe_id=...,
      interaction_type=...).count()] *)
Definition count_interactions (d : database) (src rid kind : string) : Z :=
  Z.of_nat (length (List.filter
    (fun i => (String.eqb (recipe_source i) src && String.eqb (recipe_id i) rid
               && String.eqb (interaction_type i) kind)%bool)
    (interactions d))).

(** [UserRecipe.query.get(recipe_id)] with the id as the form sent it:
    the row whose primary key prints as that text. *)
Definition UserRecipe_get (d : database) (rid : string) : option UserRecipe :=
  List.find (fun r => String.eqb (pretty (ur_id r)) rid) (recipes d).

(** The next value of the auto-incremented primary key. *)
Definition next_id (l : list Interaction) : Z :=
  1 + fold_right (fun i m => Z.max (i_id i) m) 0 l.

(** [db.session.add(Interaction(...))] *)
Definition add_interaction (u : Z) (src rid kind : string) (d : database) : database :=
  {| interactions :=
       (interactions d ++
        [ {| i_id := next_id (interactions d); user_id := u; recipe_source := src;
             recipe_id := rid; interaction_type := kind |} ])%list;
     recipes := recipes d |}.

(** [db.session.delete(existing)] *)
Definition delete_interaction (e : Interaction) (d : database) : database :=
  {| interactions := List.filter (fun i => negb (i_id i =? i_id e)) (interactions d);
     recipes := recipes d |}.

(** An attribute write on a loaded [UserRecipe]: the row with its
    primary key takes the new values. *)
Definition write_recipe (r : UserRecipe) (d : database) : database :=
  {| interactions := interactions d;
     recipes := map (fun x => if ur_id x =? ur_id r then r else x) (recipes d) |}.

(** Lines 742-745: the counter of the action, floored at 0. *)
Definition undo_counter (kind : string) (r : UserRecipe) : UserRecipe :=
  if String.eqb kind "like" then
    {| ur_id := ur_id r; ur_title := ur_title r; ur_image := ur_image r;
       ur_likes := Z.max 0 (ur_likes r - 1); ur_saves := ur_saves r |}
  else if String.eqb kind "save" then
    {| ur_id := ur_id r; ur_title := ur_title r; ur_image := ur_image r;
       ur_likes := ur_likes r; ur_saves := Z.max 0 (ur_saves r - 1) |}
  else r.

(** Lines 753-756. *)
Definition do_counter (kind : string) (r : UserRecipe) : UserRecipe :=
  if String.eqb kind "like" then
    {| ur_id := ur_id r; ur_title := ur_title r; ur_image := ur_image r;
       ur_likes := ur_likes r + 1; ur_saves := ur_saves r |}
  else if String.eqb kind "save" then
    {| ur_id := ur_id r; ur_title := ur_title r; ur_image := ur_image r;
       ur_likes := ur_likes r; ur_saves := ur_saves r + 1 |}
  else r.

(** Lines 738-756: the changes the toggle queues in the unit of work. *)
Definition queue_toggle (rq : form) (existing : option Interaction)
    (user_recipe : option UserRecipe) (d : database) : database :=
  match existing with
  | Some e =>
      let d := delete_interaction e d in
      match user_recipe with
      | Some r => write_recipe (undo_counter (action rq) r) d
      | None => d
      end
  | None =>
      let d := add_interaction (current_user rq) (source rq) (recipe rq) (action rq) d in
      match user_recipe with
      | Some r => write_recipe (do_counter (action rq) r) d
      | None => d
      end
  end.

(** [db.session.commit()]: the storage takes the pending changes, or
    raises and keeps what it had. *)
Definition commit (f : faults) (u : unit_of_work) : unit_of_work * result unit :=
  if commit_fails f then (u, Raise SQLAlchemyError)
  else ({| stored := pending u; pending := pending u |}, Ok tt).

(** [db.session.rollback()]: the pending changes are dropped. *)
Definition rollback (u : unit_of_work) : unit_of_work :=
  {| stored := stored u; pending := stored u |}.

(** Lines 760-780: the counts read back after the commit. *)
Definition read_counts (rq : form) (d : database) : http_response :=
  let likes := count_interactions d (source rq) (recipe rq) "like" in
  let saves := count_interactions d (source rq) (recipe rq) "save" in
  let '(likes, saves) :=
    if String.eqb (source rq) "user" then
      match UserRecipe_get d (recipe rq) with
      | Some r => (ur_likes r, ur_saves r)
      | None => (likes, saves)
      end
    else (likes, saves) in
  Counts likes saves
    (bool_decide (is_Some (first_interaction d (current_user rq) (source rq) (recipe rq) "like")))
    (bool_decide (is_Some (first_interaction d (current_user rq) (source rq) (recipe rq) "save"))).

(** The body of the [try] (lines 728-780). *)
Definition try_body (f : faults) (rq : form) (u : unit_of_work)
    : unit_of_work * result http_response :=
  if query_fails f then (u, Raise SQLAlchemyError) else
  let existing :=
    first_interaction (pending u) (current_user rq) (source rq) (recipe rq) (action rq) in
  let user_recipe :=
    if String.eqb (source rq) "user" then UserRecipe_get (pending u) (recipe rq)
    else None in
  if (String.eqb (source rq) "user" && negb (bool_decide (is_Some user_recipe)))%bool
  then (u, Ok NotFound)
  else
    let u := {| stored := stored u;
                pending := queue_toggle rq existing user_recipe (pending u) |} in
    match commit f u with
    | (u, Raise e) => (u, Raise e)
    | (u, Ok _) =>
        if readback_fails f then (u, Raise SQLAlchemyError)
        else (u, Ok (read_counts rq (pending u)))
    end.

(** [try: ... except Exception as e: db.session.rollback(); return 500] *)
Definition try_except_rollback (f : faults) (rq : form) (u : unit_of_work)
    : unit_of_work * http_response :=
  match try_body f rq u with
  | (u, Ok r) => (u, r)
  | (u, Raise e) =>
      if isinstance_Exception e then (rollback u, ServerError)
      else (u, ServerError)
  end.

(** Lines 722-726: the request is turned away when its key is set;
    otherwise the key is set and the request is in flight. *)
Definition enter (st : state) (rq : form) : option state :=
  if guard_set (session st) (session_key rq) then None
  else Some {| db := db st; session := <[session_key rq := JBool true]> (session st) |}.

(** Lines 727-786 for a request in flight: the toggle, then
    [finally: session.pop(session_key, None)]. *)
Definition finish (f : faults) (st : state) (rq : form) : state * http_response :=
  let '(u, r) := try_except_rollback f rq {| stored := db st; pending := db st |} in
  ({| db := stored u; session := delete (session_key rq) (session st) |}, r).

Definition interact (f : faults) (st : state) (rq : form) : state * http_response :=
  match enter st rq with
  | None => (st, TooManyRequests)
  | Some st' => finish f st' rq
  end.

(** The state of a key in the ledger. *)
Definition active (d : database) (rq : form) : bool :=
  bool_decide (is_Some
    (first_interaction d (current_user rq) (source rq) (recipe rq) (action rq))).

Definition no_faults : faults :=
  {| query_fails := false; commit_fails := false; readback_fails := false |}.

(** ** Vocabulary of the statements about the ledger *)

(** The likes counter of a user recipe, if the recipe exists. *)
Definition likes_of (d : database) (rid : string) : option Z :=
  ur_likes <$> UserRecipe_get d rid.

(** The database after a toggle that meets no fault and no missing recipe. *)
Definition toggled (rq : form) (d : database) : database :=
  queue_toggle rq
    (first_interaction d (current_user rq) (source rq) (recipe rq) (action rq))
    (if String.eqb (source rq) "user" then UserRecipe_get d (recipe rq) else None)
    d.

(** The row a toggle on an absent key inserts. *)
Definition new_row (rq : form) (d : database) : Interaction :=
  {| i_id := next_id (interactions d); user_id := current_user rq;
     recipe_source := source rq; recipe_id := recipe rq;
     interaction_type := action rq |}.

End Ledger.

(* ===================================================================== *)
(** * Upload file names *)
(* ===================================================================== *)

Module Uploads.
Import Py.

(** [app.config["ALLOWED_EXTENSIONS"]], a set in the source. *)
Definition ALLOWED_EXTENSIONS : list string := ["png"; "jpg"; "jpeg"; "gif"].

(** The text before and the text after the last dot, if there is a dot. *)
Fixpoint split_last_dot (s : string) : option (string * string) :=
  match s with
  | EmptyString => None
  | String c s' =>
      match split_last_dot s' with
      | Some (a, b) => Some (String c a, b)
      | None => if Ascii.eqb c "."%char then Some (EmptyString, s') else None
      end
  end.

(** [s.rsplit('.', 1)]: two parts around the last dot, or [s] alone. *)
Definition rsplit_dot (s : string) : list string :=
  match split_last_dot s with
  | Some (a, b) => [a; b]
  | None => [s]
  end.

(** ['.' in filename and
     filename.rsplit('.', 1)[1].lower() in app.config["ALLOWED_EXTENSIONS"]].
    The subscript [[1]] is only evaluated behind the test for a dot,
    where the split has two parts; [false] stands for the [IndexError]
    of a split with one part, which [rsplit_dot_two] shows is never
    met. *)
Definition allowed_file (filename : string) : bool :=
  if str_in "." filename then
    match rsplit_dot filename !! 1%nat with
    | Some ext => existsb (String.eqb (lower ext)) ALLOWED_EXTENSIONS
    | None => false
    end
  else false.

End Uploads.

(* ===================================================================== *)
(** * The search history *)
(* ===================================================================== *)

Module History.
Import Py Related.

(** [filter_by(query=query, cuisine=cuisine, region=region)]: a null
    column equals nothing. *)
Definition same_key (query cuisine region : string) (r : SearchHistory) : bool :=
  (String.eqb (sh_query r) query
   && match sh_cuisine r with Some c => String.eqb c cuisine | None => false end
   && match sh_region r with Some g => String.eqb g region | None => false end)%bool.

(** [existing.count += 1] on the row [.first()] returned: the first row
    of the key, in table order. *)
Fixpoint bump_first (p : SearchHistory -> bool) (rows : list SearchHistory)
    : list SearchHistory :=
  match rows with
  | [] => []
  | r :: rows' =>
      if p r then
        {| sh_query := sh_query r; sh_cuisine := sh_cuisine r;
           sh_region := sh_region r; sh_count := sh_count r + 1 |} :: rows'
      else r :: bump_first p rows'
  end.

(** [SearchHistory(query=query, cuisine=cuisine, region=region)]; the
    column default gives [count] 1. *)
Definition new_search (query cuisine region : string) : SearchHistory :=
  {| sh_query := query; sh_cuisine := Some cuisine; sh_region := Some region;
     sh_count := 1 |}.

(** Lines 442-454 of [index] and 521-533 of [suggest]: the update of
    the history, and whether the warning was flashed.  [query] is
    [request.args.get("query")]; [cuisine] and [region] come with
    defaults and are always strings. *)
Definition log_search (db : store) (query : option string) (cuisine region : string)
    : store * bool :=
  match query with
  | None => (db, false)
  | Some q =>
      if String.eqb q "" then (db, false)
      else
        match db with
        | Unavailable => (Unavailable, true)
        | Rows rows =>
            match List.find (same_key q cuisine region) rows with
            | Some existing => (Rows (bump_first (same_key q cuisine region) rows), false)
            | None => (Rows (rows ++ [new_search q cuisine region])%list, false)
            end
        end
  end.

(** ** Vocabulary of the statements about the history *)

(** The key of a row. *)
Definition key_of (r : SearchHistory) : string * option string * option string :=
  (sh_query r, sh_cuisine r, sh_region r).

(** The counts of the rows of a key, added up. *)
Definition total_count (query cuisine region : string) (rows : list SearchHistory) : Z :=
  fold_right Z.add 0 (map sh_count (List.filter (same_key query cuisine region) rows)).

(** The store after [n] searches with one key. *)
Fixpoint after_searches (n : nat) (db : store) (query cuisine region : string) : store :=
  match n with
  | O => db
  | S n' => (log_search (after_searches n' db query cuisine region)
               (Some query) cuisine region).1
  end.

End History.

(* ===================================================================== *)
(** * The catalogs of the detail and profile views *)
(* ===================================================================== *)

Module Catalogs.
Import Py.

(** An entry of [fallback_recipes] in [recipe_detail] (lines 608-658):
    only the last literal has a ["region"]. *)
Record detail_recipe : Type := {
  d_id : string;
  d_title : string;
  d_image : string;
  d_region : option string;
  d_ingredients : list string;
  d_instructions : string
}.

(** An entry of [fallback_recipes] in [profile] (lines 893-930). *)
Record profile_recipe : Type := {
  p_id : string;
  p_title : string;
  p_image : string
}.

Definition detail_rendang : detail_recipe :=
  {| d_id := "rendang";
     d_title := "Beef Rendang";
     d_image := "https://www.themealdb.com/images/media/meals/ypxrvg1515362401.jpg";
     d_region := None;
     d_ingredients :=
       [ "500g beef";
         "400ml coconut milk";
         "2 lemongrass stalks";
         "5 kaffir lime leaves";
         "2 turmeric leaves";
         "10 shallots";
         "5 garlic cloves";
         "5 red chilies";
         "1 inch ginger";
         "1 inch galangal";
         "1 tsp turmeric powder";
         "Salt to taste" ];
     d_instructions :=
       "Blend shallots, garlic, chilies, ginger, galangal, and turmeric into a paste. Cook the paste with lemongrass, lime leaves, and turmeric leaves until fragrant. Add beef and coconut milk, simmer for 3-4 hours until the sauce thickens and the beef is tender. Season with salt." |}.

Definition detail_soto : detail_recipe :=
  {| d_id := "soto";
     d_title := "Soto Ayam";
     d_image := "https://www.themealdb.com/images/media/meals/8mpqzz1508507655.jpg";
     d_region := None;
     d_ingredients :=
       [ "500g chicken";
         "2L water";
         "2 lemongrass stalks";
         "3 kaffir lime leaves";
         "2 bay leaves";
         "5 shallots";
         "3 garlic cloves";
         "1 inch ginger";
         "1 tsp turmeric powder";
         "1 tsp coriander powder";
         "Salt to taste";
         "Vermicelli noodles";
         "Boiled eggs";
         "Lime wedges" ];
     d_instructions :=
       "Boil chicken in water with lemongrass, lime leaves, and bay leaves. Blend shallots, garlic, ginger, turmeric, and coriander into a paste. Sauté the paste until fragrant, then add to the broth. Simmer for 30 minutes. Shred the chicken. Serve with vermicelli, boiled eggs, and lime wedges." |}.

Definition detail_gudeg : detail_recipe :=
  {| d_id := "gudeg";
     d_title := "Gudeg Jogja";
     d_image := "https://www.themealdb.com/images/media/meals/1529445893.jpg";
     d_region := None;
     d_ingredients :=
       [ "1kg young jackfruit";
         "500ml coconut milk";
         "200g palm sugar";
         "5 shallots";
         "3 garlic cloves";
         "5 candlenuts";
         "1 tsp coriander powder";
         "2 bay leaves";
         "2 teak leaves";
         "Salt to taste" ];
     d_instructions :=
       "Boil jackfruit until tender. Blend shallots, garlic, candlenuts, and coriander into a paste. Cook the paste with coconut milk, palm sugar, bay leaves, teak leaves, and jackfruit. Simmer for 4-5 hours until the jackfruit is soft and the sauce thickens. Season with salt." |}.

Definition detail_satay : detail_recipe :=
  {| d_id := "satay";
     d_title := "Chicken Satay";
     d_image := "https://www.themealdb.com/images/media/meals/1526418975.jpg";
     d_region := None;
     d_ingredients :=
       [ "500g chicken";
         "2 tbsp soy sauce";
         "2 tbsp peanut butter";
         "1 tbsp lime juice";
         "5 shallots";
         "3 garlic cloves";
         "1 tsp turmeric powder";
         "1 tsp coriander powder";
         "Skewers" ];
     d_instructions :=
       "Blend shallots, garlic, turmeric, and coriander into a paste. Marinate chicken with the paste, soy sauce, peanut butter, and lime juice for 1 hour. Skewer the chicken and grill until cooked. Serve with peanut sauce." |}.

Definition detail_nasi_goreng : detail_recipe :=
  {| d_id := "nasi_goreng";
     d_title := "Nasi Goreng";
     d_image := "https://www.themealdb.com/images/media/meals/1529445893.jpg";
     d_region := None;
     d_ingredients :=
       [ "2 cups cooked rice";
         "100g chicken";
         "2 eggs";
         "5 shallots";
         "3 garlic cloves";
         "2 red chilies";
         "1 tbsp soy sauce";
         "1 tbsp sweet soy sauce";
         "Salt to taste";
         "Fried shallots" ];
     d_instructions :=
       "Blend shallots, garlic, and chilies into a paste. Sauté the paste until fragrant. Add chicken and cook until done. Push to the side, scramble the eggs. Add rice, soy sauce, sweet soy sauce, and salt. Stir-fry until mixed. Garnish with fried shallots." |}.

Definition detail_soto_banjar : detail_recipe :=
  {| d_id := "soto_banjar";
     d_title := "Soto Banjar";
     d_image := "https://www.themealdb.com/images/media/meals/8mpqzz1508507655.jpg";
     d_region := Some "Kalimantan Selatan";
     d_ingredients :=
       [ "500g chicken";
         "2L water";
         "2 lemongrass stalks";
         "3 kaffir lime leaves";
         "2 cloves";
         "2 star anise";
         "5 shallots";
         "3 garlic cloves";
         "1 inch ginger";
         "1 tsp turmeric powder";
         "Salt to taste";
         "Rice cakes";
         "Boiled eggs" ];
     d_instructions :=
       "Boil chicken with lemongrass, lime leaves, cloves, and star anise. Blend shallots, garlic, ginger, and turmeric into a paste. Sauté the paste until fragrant, then add to the broth. Simmer for 30 minutes. Shred the chicken. Serve with rice cakes and boiled eggs." |}.

Definition detail_fallback_recipes : list detail_recipe :=
  [ detail_rendang;
    detail_soto;
    detail_gudeg;
    detail_satay;
    detail_nasi_goreng;
    detail_soto_banjar ].

Definition profile_rendang : profile_recipe :=
  {| p_id := "rendang";
     p_title := "Beef Rendang";
     p_image := "https://www.themealdb.com/images/media/meals/ypxrvg1515362401.jpg" |}.

Definition profile_soto : profile_recipe :=
  {| p_id := "soto";
     p_title := "Soto Ayam";
     p_image := "https://www.themealdb.com/images/media/meals/8mpqzz1508507655.jpg" |}.

Definition profile_gudeg : profile_recipe :=
  {| p_id := "gudeg";
     p_title := "Gudeg Jogja";
     p_image := "https://www.themealdb.com/images/media/meals/1529445893.jpg" |}.

Definition profile_satay : profile_recipe :=
  {| p_id := "satay";
     p_title := "Chicken Satay";
     p_image := "https://www.themealdb.com/images/media/meals/1526418975.jpg" |}.

Definition profile_nasi_goreng : profile_recipe :=
  {| p_id := "nasi_goreng";
     p_title := "Nasi Goreng";
     p_image := "https://www.themealdb.com/images/media/meals/1529445893.jpg" |}.

Definition profile_soto_banjar : profile_recipe :=
  {| p_id := "soto_banjar";
     p_title := "Soto Banjar";
     p_image := "https://www.themealdb.com/images/media/meals/8mpqzz1508507655.jpg" |}.

Definition profile_fallback_recipes : list profile_recipe :=
  [ profile_rendang;
    profile_soto;
    profile_gudeg;
    profile_satay;
    profile_nasi_goreng;
    profile_soto_banjar ].

(** [next((r for r in fallback_recipes if r["id"] == recipe_id), None)]
    in [recipe_detail]. *)
Definition detail_lookup (recipe_id : string) : option detail_recipe :=
  List.find (fun r => String.eqb (d_id r) recipe_id) detail_fallback_recipes.

(** The same expression in [profile], on its own literal. *)
Definition profile_lookup (recipe_id : string) : option profile_recipe :=
  List.find (fun r => String.eqb (p_id r) recipe_id) profile_fallback_recipes.

End Catalogs.

(* ===================================================================== *)
(** * The ingredient lines of a TheMealDB recipe *)
(* ===================================================================== *)

Module Detail.
Import Py.





(** ** Vocabulary of the statements about ingredient lines *)


End Detail.

(* ===================================================================== *)
(** * The weather clients *)
(* ===================================================================== *)

Module Weather.
Import Py Net.

(** The weather code also subscripts a list, which adds [IndexError] to
    the exceptions of [Py]. *)
Inductive error : Type :=
| Known (e : exn)
| IndexError.

Inductive outcome (A : Type) : Type :=
| Returned (a : A)
| Raised (e : error).
Arguments Returned {A} a.
Arguments Raised {A} e.

#[global] Instance outcome_ret : MRet outcome := fun _ a => Returned a.
#[global] Instance outcome_bind : MBind outcome := fun _ _ f m =>
  match m with
  | Returned a => f a
  | Raised e => Raised e
  end.

Definition lift {A} (m : result A) : outcome A :=
  match m with
  | Ok a => Returned a
  | Raise e => Raised (Known e)
  end.

(** [v[0]]: the first element of a list or the first character of a
    string, [IndexError] when there is none; a dict is asked for the
    key 0, which a decoded JSON object never has; nothing else can be
    subscripted. *)
Definition first_item (v : json) : outcome json :=
  match v with
  | JArr (x :: _) => Returned x
  | JArr [] => Raised IndexError
  | JStr (String c _) => Returned (JStr (String c EmptyString))
  | JStr EmptyString => Raised IndexError
  | JObj _ => Raised (Known (KeyError "0"))
  | _ => Raised (Known TypeError)
  end.

(** The two requests to OpenWeatherMap; [lat], [lon] and [city] go into
    the URL as they are. *)
Inductive weather_request : Type :=
| ByCoords (lat lon : json)
| ByCity (city : json).

Definition weather_http : Type := weather_request -> response.

Definition weather_get (net : weather_http) (rq : weather_request) : outcome reply :=
  match net rq with
  | Answered r => Returned r
  | TransportError => Raised (Known RequestException)
  end.

(** The dict both clients return. *)
Record weather_dict : Type := {
  w_city : json;
  w_condition : json;
  w_temp : json;
  w_weather_main : json
}.

(** [try: ... except requests.RequestException: return None] *)
Definition or_none {A} (m : outcome (option A)) : outcome (option A) :=
  match m with
  | Raised (Known e) => if isinstance_RequestException e then Returned None else m
  | _ => m
  end.

(** The three entries both clients read from the answer, in the order
    of the dict literal: [data["weather"][0]["description"]],
    [data["main"]["temp"]], [data["weather"][0]["main"]]. *)
Definition read_conditions (data : json) : outcome (json * json * json) :=
  w ← lift (getitem data "weather");
  w0 ← first_item w;
  description ← lift (getitem w0 "description");
  m ← lift (getitem data "main");
  t ← lift (getitem m "temp");
  w' ← lift (getitem data "weather");
  w0' ← first_item w';
  main ← lift (getitem w0' "main");
  Returned (description, t, main).

Definition get_weather_by_coords (net : weather_http) (lat lon : json)
    : outcome (option weather_dict) :=
  or_none
    (response ← weather_get net (ByCoords lat lon);
     if negb (status_code response =? 200) then Returned None
     else
       data ← lift (response_json response);
       name ← lift (getitem data "name");
       c ← read_conditions data;
       Returned (Some {| w_city := name; w_condition := c.1.1;
                         w_temp := c.1.2; w_weather_main := c.2 |})).

Definition get_weather (net : weather_http) (city : json)
    : outcome (option weather_dict) :=
  or_none
    (response ← weather_get net (ByCity city);
     if negb (status_code response =? 200) then Returned None
     else
       data ← lift (response_json response);
       c ← read_conditions data;
       Returned (Some {| w_city := city; w_condition := c.1.1;
                         w_temp := c.1.2; w_weather_main := c.2 |})).

Inductive weather_response : Type :=
| BadRequest
| FetchFailed
| WeatherJson (w : weather_dict).

(** The route [/api/weather-by-coords] on the decoded request body. *)
Definition weather_by_coords (net : weather_http) (data : json)
    : outcome weather_response :=
  lat ← lift (get data "lat" JNull);
  lon ← lift (get data "lon" JNull);
  if (negb (truthy lat) || negb (truthy lon))%bool then Returned BadRequest
  else
    weather ← get_weather_by_coords net lat lon;
    match weather with
    | None => Returned FetchFailed
    | Some w => Returned (WeatherJson w)
    end.

End Weather.

(* ===================================================================== *)
(** * Vocabulary of the statements about the regional search *)
(* ===================================================================== *)

Module RegionalSpec.
Import Py Net Providers.

(** The catalog entries whose title contains [q] and whose region
    contains [rg], in catalog order. *)
Definition hits (q rg : string) : list fallback_recipe :=
  List.filter (in_region rg) (List.filter (fallback_match q) fallback_recipes).

End RegionalSpec.

(* ===================================================================== *)
(** * Vocabulary of the statements about the ledger *)
(* ===================================================================== *)

Module LedgerSpec.
Import Py Recommend Ledger.

(** The key of a toggle. *)
Definition toggle_key (rq : form) : Z * string * string * string :=
  (current_user rq, source rq, recipe rq, action rq).

(** The primary keys of both tables are pairwise distinct. *)
Definition keys_unique (d : database) : Prop :=
  NoDup (map i_id (interactions d)) /\ NoDup (map ur_id (recipes d)).

(** The key of a row of the ledger. *)
Definition row_key (i : Interaction) : Z * string * string * string :=
  (user_id i, recipe_source i, recipe_id i, interaction_type i).

(** No two rows of the ledger have the same key. *)
Definition one_per_key (d : database) : Prop :=
  NoDup (map row_key (interactions d)).


(** A small ledger for the examples: one user recipe, liked once by
    user 2, and a like of a catalog recipe by user 2. *)
Definition small_ledger : state :=
  {| db := {| interactions :=
                [ {| i_id := 1; user_id := 2; recipe_source := "user";
                     recipe_id := "7"; interaction_type := "like" |};
                  {| i_id := 2; user_id := 2; recipe_source := "fallback";
                     recipe_id := "soto"; interaction_type := "like" |} ];
              recipes := [ {| ur_id := 7; ur_title := "Sayur Lodeh"; ur_image := None;
                              ur_likes := 1; ur_saves := 0 |} ] |};
     session := ∅ |}.

Definition like_of (u : Z) (src rid : string) : form :=
  {| current_user := u; source := src; recipe := rid; action := "like" |}.

End LedgerSpec.

(* ===================================================================== *)
(** * The suggestion endpoint *)
(* ===================================================================== *)

Module Suggest.
Import Py Net Providers Recommend Related History.

(** SQL [LIKE]: [%] stands for any run of characters, [_] for any one
    character, anything else for itself. *)
Fixpoint like (pattern : string) : string -> bool :=
  match pattern with
  | EmptyString => fun text => match text with EmptyString => true | _ => false end
  | String c pattern' =>
      if Ascii.eqb c "%"%char then
        fix any (text : string) : bool :=
          (like pattern' text
           || match text with
              | EmptyString => false
              | String _ text' => any text'
              end)%bool
      else
        fun text =>
          match text with
          | EmptyString => false
          | String d text' =>
              ((Ascii.eqb c "_"%char || Ascii.eqb c d) && like pattern' text')%bool
          end
  end.

(** [column.ilike(pattern)]: [LIKE] on the lower-cased column and
    pattern. *)
Definition ilike (pattern text : string) : bool := like (lower pattern) (lower text).

(** [UserRecipe.query.filter(UserRecipe.title.ilike(f"%{query}%")).limit(5).all()],
    formatted as the source formats user recipes. *)
Definition user_title_search (rows : list UserRecipe) (query : string) : list recipe :=
  map user_format
    (take 5 (List.filter (fun r => ilike ("%" ++ query ++ "%") (ur_title r)) rows)).

(** [s.split(",")] *)
Fixpoint split_comma (s : string) : list string :=
  match s with
  | EmptyString => [EmptyString]
  | String c s' =>
      if Ascii.eqb c ","%char then EmptyString :: split_comma s'
      else match split_comma s' with
           | h :: t => String c h :: t
           | [] => [String c EmptyString]
           end
  end.

(** The query parameters of [/api/suggest], after their defaults
    ([cuisine] "western", [type] "name", [query] "", [region]
    "All Regions"). *)
Record suggest_args : Type := {
  a_cuisine : string;
  a_type : string;
  a_query : string;
  a_region : string;
  a_max_time : option string;
  a_diet : option string
}.

Inductive suggest_response : Type :=
| PleaseProvide
| Recipes (recipes : list recipe).

(** Lines 539-547: the provider part of the answer. *)
Definition provider_recipes (net : http) (a : suggest_args) : result (list recipe) :=
  if String.eqb (a_cuisine a) "western" then
    if String.eqb (a_type a) "name" then
      suggest_western_recipes_by_name net (a_query a) 5 (a_max_time a) (a_diet a)
    else if String.eqb (a_type a) "ingredients" then
      suggest_western_recipes_by_ingredients net (split_comma (a_query a)) 5
        (a_max_time a) (a_diet a)
    else Ok []
  else if String.eqb (a_cuisine a) "indonesian" then
    suggest_indonesian_recipes_by_name net (a_query a) (Some (a_region a)) 5
  else Ok [].

(** The route, on the search history and the world: the history after
    the request, and the answer or the exception that escapes. *)
Definition suggest (wd : world) (db : store) (a : suggest_args)
    : store * result suggest_response :=
  let db := (log_search db (Some (a_query a)) (a_cuisine a) (a_region a)).1 in
  if (String.eqb (a_query a) ""
      && (String.eqb (a_region a) "" || String.eqb (a_region a) "All Regions"))%bool
  then (db, Ok PleaseProvide)
  else
    (db,
     recipes ← provider_recipes (net wd) a;
     Ok (Recipes (recipes ++ user_title_search (user_recipes wd) (a_query a))%list)).

(** ** Vocabulary of the statements about the endpoint *)

(** No [LIKE] wildcard occurs in the text. *)
Fixpoint wildcard_free (s : string) : bool :=
  match s with
  | EmptyString => true
  | String c s' =>
      (negb (Ascii.eqb c "%"%char) && negb (Ascii.eqb c "_"%char) && wildcard_free s')%bool
  end.

End Suggest.

(* ===================================================================== *)
(** * Facts about the Python fragment *)
(* ===================================================================== *)

Module PyFacts.
Import Py.

Lemma append_cons (c : ascii) (s t : string) : String c s ++ t = String c (s ++ t).
Proof. reflexivity. Qed.

Lemma append_nil (t : string) : "" ++ t = t.
Proof. reflexivity. Qed.

Lemma prefix_spec (n h : string) :
  String.prefix n h = true <-> exists post, h = n ++ post.
Proof.
  revert h. induction n as [|c n IH]; intros h.
  - split; [intros _; exists h; reflexivity | intros _; destruct h; reflexivity].
  - destruct h as [|d h]; simpl.
    + split; [discriminate | intros [post H]; discriminate].
    + destruct (ascii_dec c d) as [->|Hne].
      * rewrite IH. split; intros [post H]; exists post;
          rewrite append_cons in *; congruence.
      * split; [discriminate | intros [post H]; rewrite append_cons in H; congruence].
Qed.

(** [needle in hay] holds exactly when [hay] splits around [needle]. *)
Lemma str_in_spec (n h : string) :
  str_in n h = true <-> exists pre post, h = pre ++ n ++ post.
Proof.
  induction h as [|c h IH].
  - destruct n as [|d n]; simpl.
    + split; [intros _; exists "", ""; reflexivity | reflexivity].
    + split; [discriminate|].
      intros [pre [post H]]. destruct pre; discriminate.
  - cbn [str_in]. rewrite orb_true_iff, IH. split.
    + intros [H | [pre [post H]]].
      * apply (proj1 (prefix_spec n (String c h))) in H as [post H].
        exists "", post. exact H.
      * exists (String c pre), post. rewrite append_cons. congruence.
    + intros [pre [post H]]. destruct pre as [|d pre].
      * left. apply (proj2 (prefix_spec n (String c h))). exists post. exact H.
      * right. exists pre, post. rewrite append_cons in H. congruence.
Qed.

Lemma str_in_empty (h : string) : str_in "" h = true.
Proof. apply str_in_spec. exists "", h. reflexivity. Qed.

Lemma lower_app (a b : string) : lower (a ++ b) = lower a ++ lower b.
Proof.
  induction a as [|c a IH]; [reflexivity|].
  rewrite append_cons. simpl. rewrite append_cons. congruence.
Qed.



Lemma bind_Ok {A B} (m : result A) (f : A -> result B) (b : B) :
  m ≫= f = Ok b <-> exists a, m = Ok a /\ f a = Ok b.
Proof.
  destruct m as [a|e]; simpl.
  - split; [intros H; exists a; auto | intros [a' [[= <-] H]]; exact H].
  - split; [discriminate | intros [a' [H _]]; discriminate].
Qed.

Lemma for_each_Ok_length {A B} (f : A -> result B) (l : list A) (r : list B) :
  for_each f l = Ok r -> length r = length l.
Proof.
  revert r. induction l as [|x l IH]; intros r; simpl.
  - intros [= <-]. reflexivity.
  - destruct (f x) as [y|e]; simpl; [|discriminate].
    destruct (for_each f l) as [ys|e]; simpl; [|discriminate].
    intros [= <-]. simpl. f_equal. apply IH. reflexivity.
Qed.

(** A comprehension returns exactly when its body does on every element. *)
Lemma for_each_Ok_iff {A B} (f : A -> result B) (l : list A) :
  (exists r, for_each f l = Ok r) <-> Forall (fun x => exists y, f x = Ok y) l.
Proof.
  induction l as [|x l IH]; simpl.
  - split; [constructor | intros _; exists []; reflexivity].
  - split.
    + intros [r H]. destruct (f x) as [y|e] eqn:Hx; simpl in H; [|discriminate].
      destruct (for_each f l) as [ys|e] eqn:Hl; simpl in H; [|discriminate].
      constructor; [exists y; exact Hx | apply IH; exists ys; reflexivity].
    + intros H. inversion H as [|? ? [y Hy] Hl]; subst.
      apply IH in Hl as [ys Hys]. exists (y :: ys). rewrite Hy, Hys. reflexivity.
Qed.

Lemma for_each_Forall {A B} (P : B -> Prop) (f : A -> result B) (l : list A) (r : list B) :
  (forall x y, f x = Ok y -> P y) -> for_each f l = Ok r -> Forall P r.
Proof.
  intros Hf. revert r. induction l as [|x l IH]; intros r; simpl.
  - intros [= <-]. constructor.
  - destruct (f x) as [y|e] eqn:Hx; simpl; [|discriminate].
    destruct (for_each f l) as [ys|e]; simpl; [|discriminate].
    intros [= <-]. constructor; [eapply Hf; eauto | apply IH; reflexivity].
Qed.

End PyFacts.

(* ===================================================================== *)
(** * Facts about the provider clients *)
(* ===================================================================== *)

Module ProvidersFacts.
Import Py Net Providers PyFacts.

(** Inverts a successful monadic computation one bind at a time. *)
Tactic Notation "inv_bind" hyp(H) "as" ident(a) ident(Ha) :=
  apply bind_Ok in H as [a [Ha H]].

Lemma truthy_not_empty (v : json) : truthy v = true -> v <> JStr "".
Proof. intros H ->. discriminate. Qed.

Lemma placeholder_truthy : truthy (JStr placeholder) = true.
Proof. reflexivity. Qed.

Lemma fallback_format_image (r : fallback_recipe) :
  truthy (recipe_image (fallback_format r)) = true.
Proof.
  unfold fallback_format; simpl.
  destruct (negb (fb_image r =? ""))%string eqn:E; [exact E | reflexivity].
Qed.

Lemma format_result_image (r : json) (x : recipe) :
  format_result r = Ok x -> truthy (recipe_image x) = true.
Proof.
  unfold format_result. intros H.
  inv_bind H as i Hi. inv_bind H as t Ht. cbv zeta in H.
  inv_bind H as a1 Ha1. inv_bind H as a2 Ha2.
  injection H as <-. cbn [recipe_image].
  destruct a1.
  - destruct (isinstance_dict r && has_key "strMealThumb" r)%bool; [|discriminate].
    rewrite Ha2 in Ha1. simpl in Ha1. congruence.
  - destruct (isinstance_dict r); simpl in Ha2.
    + destruct (get r "image" JNull) as [v|] eqn:Ev; simpl in Ha2; [|discriminate].
      destruct (truthy v) eqn:Et; [|injection Ha2 as <-; reflexivity].
      destruct r; try discriminate. simpl in Ev, Ha2.
      destruct (assoc "image" kvs); simpl in Ev; congruence.
    + injection Ha2 as <-. reflexivity.
Qed.

Lemma fallback_by_title_image (q : string) (n : nat) :
  Forall (fun x => truthy (recipe_image x) = true) (fallback_by_title q n).
Proof.
  unfold fallback_by_title. apply Forall_take, Forall_fmap, Forall_forall.
  intros r _. apply fallback_format_image.
Qed.

Lemma format_results_image q n results l :
  format_results q n results = Ok l ->
  Forall (fun x => truthy (recipe_image x) = true) l.
Proof.
  unfold format_results. intros E. inv_bind E as formatted Hfmt.
  destruct formatted as [|x xs]; injection E as <-.
  - apply fallback_by_title_image.
  - eapply for_each_Forall; [|eassumption].
    intros. eapply format_result_image; eauto.
Qed.

(** The regional client never returns an empty image: whatever it
    returns as [image] is truthy. *)
Lemma indonesian_image_truthy net query region number l :
  suggest_indonesian_recipes_by_name net query region number = Ok l ->
  Forall (fun x => truthy (recipe_image x) = true) l.
Proof.
  unfold suggest_indonesian_recipes_by_name, try_except. cbv zeta.
  match goal with |- match ?m with _ => _ end = _ -> _ => destruct m as [a|e] eqn:E end.
  - intros [= ->]. inv_bind E as resp Hresp. inv_bind E as v Hv.
    inv_bind E as meals Hmeals. inv_bind E as u Hu. inv_bind E as results Hres.
    eapply format_results_image; eauto.
  - destruct (isinstance_RequestException e); [|discriminate].
    intros [= <-]. apply fallback_by_title_image.
Qed.

(** The sibling paths of the Spoonacular clients do replace an empty
    image: the regional client and the user-recipe formatter never
    return the empty string. *)
Lemma indonesian_image_never_empty net query region number l :
  suggest_indonesian_recipes_by_name net query region number = Ok l ->
  Forall (fun x => recipe_image x <> JStr "") l.
Proof.
  intros H. eapply Forall_impl; [eapply indonesian_image_truthy; exact H|].
  intros x. apply truthy_not_empty.
Qed.

Lemma user_format_image_never_empty (r : Recommend.UserRecipe) :
  recipe_image (Recommend.user_format r) <> JStr "".
Proof.
  unfold Recommend.user_format. simpl.
  destruct (Recommend.ur_image r) as [s|]; [|discriminate].
  destruct (String.eqb_spec s "") as [->|Hne]; [discriminate|]. congruence.
Qed.

(** ** The regional client on catalog entries *)

Lemma read_meals_falsy (r : reply) (v : json) :
  read_meals r = Ok v -> truthy v = false -> v = JArr [].
Proof.
  unfold read_meals, try_except.
  destruct (negb (status_code r =? 200)); [intros [= <-]; reflexivity|].
  unfold response_json. destruct (content r) as [data|b]; simpl;
    [|intros [= <-]; reflexivity].
  destruct (isinstance_dict data) eqn:Ed; simpl; [|intros [= <-]; reflexivity].
  destruct data; try discriminate. simpl.
  destruct (truthy (default (JArr []) (assoc "meals" kvs))) eqn:Et;
    intros [= <-]; [congruence | reflexivity].
Qed.

Lemma no_usable_results_cases (r : reply) :
  (status_code r <> 200
   \/ (exists b, content r = Undecodable b)
   \/ (exists data, content r = Decoded data /\ isinstance_dict data = false)
   \/ (exists kvs, content r = Decoded (JObj kvs)
                   /\ truthy (default (JArr []) (assoc "meals" kvs)) = false))
  -> no_usable_results (Answered r) = true.
Proof.
  unfold no_usable_results, read_meals, try_except, response_json.
  destruct (Z.eqb_spec (status_code r) 200) as [E|E]; simpl; [|reflexivity].
  intros [H | [[b H] | [[data [H Hd]] | [kvs [H Ht]]]]].
  - contradiction.
  - rewrite H. reflexivity.
  - rewrite H. simpl. rewrite Hd. reflexivity.
  - rewrite H. simpl. rewrite Ht. reflexivity.
Qed.

Lemma format_as_dict (r : fallback_recipe) :
  format_result (as_dict r) = Ok (fallback_format r).
Proof.
  unfold format_result, fallback_format, as_dict. simpl.
  destruct (negb (fb_image r =? ""))%string; reflexivity.
Qed.

Lemma format_catalog (l : list fallback_recipe) :
  for_each format_result (map as_dict l) = Ok (map fallback_format l).
Proof.
  induction l as [|r l IH]; [reflexivity|].
  cbn [map for_each]. rewrite format_as_dict, IH. reflexivity.
Qed.

Lemma fmap_take' {A B} (f : A -> B) (n : nat) (l : list A) :
  take n (map f l) = map f (take n l).
Proof. symmetry. apply fmap_take. Qed.

(** The region stage on the whole catalog, for "Java". *)
Lemma java_region_stage (number : nat) :
  filter_by_region "" (Some "Java") number (catalog_by_title "")
  = Ok (take number (map as_dict (List.filter (in_region "Java") fallback_recipes))).
Proof.
  unfold filter_by_region. change (region_filter (Some "Java")) with (Some "Java").
  replace (filter_each (region_matches "Java") (catalog_by_title ""))
    with (Ok (map as_dict (List.filter (in_region "Java") fallback_recipes)))
    by (vm_compute; reflexivity).
  reflexivity.
Qed.

Lemma region_matches_as_dict (rg : string) (r : fallback_recipe) :
  exists b, region_matches rg (as_dict r) = Ok b.
Proof.
  unfold region_matches, field_contains, region_equals, as_dict. simpl.
  destruct (lower rg); simpl; eauto.
Qed.

Lemma filter_each_catalog (rg : string) (l : list fallback_recipe) :
  exists l', filter_each (region_matches rg) (map as_dict l) = Ok (map as_dict l').
Proof.
  induction l as [|r l [l' IH]]; [exists []; reflexivity|].
  cbn [map filter_each]. destruct (region_matches_as_dict rg r) as [b ->].
  rewrite IH. cbn [mbind result_bind].
  destruct b; [exists (r :: l') | exists l']; reflexivity.
Qed.

(** The two later stages never raise on catalog entries. *)
Lemma catalog_stages_return (q : string) (region : option string) (number : nat)
    (l : list fallback_recipe) :
  exists out,
    filter_by_region q region number (map as_dict l) ≫= format_results q number = Ok out.
Proof.
  assert (Hfmt : forall k : list fallback_recipe,
            exists out, format_results q number (take number (map as_dict k)) = Ok out).
  { intros k. unfold format_results. rewrite fmap_take', format_catalog.
    cbn [mbind result_bind]. destruct (map fallback_format (take number k)); eauto. }
  unfold filter_by_region. destruct (region_filter region) as [rg|].
  - destruct (filter_each_catalog rg l) as [l' ->]. cbn [mbind result_bind].
    destruct (map as_dict l') as [|x xs] eqn:E.
    + apply Hfmt.
    + rewrite <- E. apply Hfmt.
  - cbn [mbind result_bind]. apply Hfmt.
Qed.


(** ** The Spoonacular clients *)

Lemma spoonacular_record_Ok (r : json) :
  (exists x, spoonacular_record r = Ok x) <-> record_ok r = true.
Proof.
  unfold spoonacular_record, record_ok.
  destruct r as [| | | | |kvs]; simpl;
    try (split; [intros [x H]; discriminate | discriminate]).
  destruct (assoc "id" kvs) as [i|]; simpl;
    [|split; [intros [x H]; discriminate | discriminate]].
  destruct (assoc "title" kvs) as [t|]; simpl;
    [|split; [intros [x H]; discriminate | discriminate]].
  split; [reflexivity | intros _; eexists; reflexivity].
Qed.

Lemma records_Ok (items : list json) :
  (exists l, for_each spoonacular_record items = Ok l) <-> forallb record_ok items = true.
Proof.
  rewrite for_each_Ok_iff, forallb_forall, List.Forall_forall.
  split; intros H x Hx; apply spoonacular_record_Ok, H, Hx.
Qed.

Lemma get_Raise r k d e : get r k d = Raise e -> e = AttributeError.
Proof. destruct r; simpl; congruence. Qed.

Lemma iter_Raise v e : iter v = Raise e -> e = TypeError.
Proof. destruct v; simpl; congruence. Qed.

Lemma getitem_Raise r k e : getitem r k = Raise e -> e = KeyError k \/ e = TypeError.
Proof.
  destruct r as [| | | | |kvs]; simpl; try (intros [= <-]; auto).
  destruct (assoc k kvs); intros [= <-]; auto.
Qed.

(** What a Spoonacular record can raise is never a [RequestException]. *)
Lemma spoonacular_record_Raise r e :
  spoonacular_record r = Raise e -> isinstance_RequestException e = false.
Proof.
  unfold spoonacular_record.
  destruct (getitem r "id") as [i|e1] eqn:E1; simpl.
  - destruct (getitem r "title") as [t|e2] eqn:E2; simpl.
    + destruct (get r "image" (JStr placeholder)) as [g|e3] eqn:E3; simpl; [discriminate|].
      intros [= <-]. apply get_Raise in E3 as ->. reflexivity.
    + intros [= <-]. apply getitem_Raise in E2 as [-> | ->]; reflexivity.
  - intros [= <-]. apply getitem_Raise in E1 as [-> | ->]; reflexivity.
Qed.

Lemma records_Raise items e :
  for_each spoonacular_record items = Raise e -> isinstance_RequestException e = false.
Proof.
  induction items as [|x items IH]; simpl; [discriminate|].
  destruct (spoonacular_record x) as [y|e1] eqn:E1; simpl.
  - destruct (for_each spoonacular_record items) as [ys|e2]; simpl; [discriminate|].
    intros [= <-]. apply IH. reflexivity.
  - intros [= <-]. eapply spoonacular_record_Raise; eauto.
Qed.

Ltac no_list := let l := fresh in let H := fresh in intros [l H]; discriminate.

(** C1, at the failing input: a Spoonacular record whose [image] is
    present but empty is normalized to a recipe whose image is the empty
    string; the placeholder is not used. *)
Theorem western_image_can_be_empty :
  suggest_western_recipes_by_name empty_image_answer "soup" 1 None None
  = Ok [ {| recipe_id := "7"; recipe_title := JStr "Soup";
            recipe_source := "spoonacular"; recipe_image := JStr "" |} ].
Proof. vm_compute. reflexivity. Qed.


Lemma by_name_returns_iff net query number max_time diet :
  (exists l, suggest_western_recipes_by_name net query number max_time diet = Ok l)
  <-> expected_by_name
        (net (SpoonacularComplexSearch query number
                (only_if_truthy max_time) (only_if_truthy diet))) = true.
Proof.
  unfold suggest_western_recipes_by_name, requests_get, expected_by_name.
  destruct (net _) as [r|]; simpl; [|split; eauto].
  destruct (negb (status_code r =? 200)); simpl; [split; eauto|].
  unfold response_json. destruct (content r) as [data|b]; simpl.
  - destruct (get data "results" (JArr [])) as [v|e] eqn:Eg; simpl.
    + destruct (iter v) as [items|e] eqn:Ei; simpl.
      * rewrite <- records_Ok.
        destruct (for_each spoonacular_record items) as [l|e] eqn:Ef; simpl;
          [reflexivity|].
        rewrite (records_Raise _ _ Ef). split; no_list.
      * apply iter_Raise in Ei as ->. simpl. split; [no_list | discriminate].
    + apply get_Raise in Eg as ->. simpl. split; [no_list | discriminate].
  - destruct b; simpl; [split; eauto|]. split; [no_list | discriminate].
Qed.

Lemma by_ingredients_returns_iff net ingredients number max_time diet :
  (exists l, suggest_western_recipes_by_ingredients net ingredients number max_time diet
             = Ok l)
  <-> expected_by_ingredients
        (net (SpoonacularFindByIngredients (String.concat "," ingredients) number
                (only_if_truthy max_time) (only_if_truthy diet))) = true.
Proof.
  unfold suggest_western_recipes_by_ingredients, requests_get, expected_by_ingredients.
  destruct (net _) as [r|]; simpl; [|split; eauto].
  destruct (negb (status_code r =? 200)); simpl; [split; eauto|].
  unfold response_json. destruct (content r) as [data|b]; simpl.
  - destruct (iter data) as [items|e] eqn:Ei; simpl.
    + rewrite <- records_Ok.
      destruct (for_each spoonacular_record items) as [l|e] eqn:Ef; simpl;
        [reflexivity|].
      rewrite (records_Raise _ _ Ef). split; no_list.
    + apply iter_Raise in Ei as ->. simpl. split; [no_list | discriminate].
  - destruct b; simpl; [split; eauto|]. split; [no_list | discriminate].
Qed.



(** C8: with an empty query and the region "Java", an answer without
    usable results makes the regional search return the catalog entries
    whose region equals "Java" case-insensitively, in catalog order, cut
    to [number]: Soto Ayam, Gudeg Jogja, Chicken Satay and Nasi Goreng,
    neither Beef Rendang nor Soto Banjar. *)
Theorem java_fallback_on_empty_results (net : http) (number : nat) :
  no_usable_results (net (TheMealDBSearch "")) = true ->
  suggest_indonesian_recipes_by_name net "" (Some "Java") number
  = Ok (take number (map fallback_format (List.filter (in_region "Java") fallback_recipes)))
  /\ map fb_title (List.filter (in_region "Java") fallback_recipes)
     = ["Soto Ayam"; "Gudeg Jogja"; "Chicken Satay"; "Nasi Goreng"].
Proof.
  intros H. split; [|vm_compute; reflexivity].
  unfold suggest_indonesian_recipes_by_name, try_except, requests_get.
  change (lower (strip "")) with "".
  unfold no_usable_results in H.
  destruct (net (TheMealDBSearch "")) as [r|]; [|discriminate].
  cbn beta iota delta [mbind result_bind].
  destruct (read_meals r) as [v|e] eqn:Ev; [|discriminate].
  apply negb_true_iff in H. rewrite (read_meals_falsy r v Ev H).
  cbn beta iota zeta delta [mbind result_bind iter for_each truthy negb].
  rewrite java_region_stage. cbn beta iota delta [mbind result_bind].
  rewrite fmap_take'. unfold format_results. rewrite format_catalog.
  cbn beta iota delta [mbind result_bind].
  rewrite <- fmap_take'.
  destruct (take number (map fallback_format (List.filter (in_region "Java") fallback_recipes)))
    as [|x xs] eqn:Et; [|reflexivity].
  f_equal. destruct number as [|number]; [reflexivity | discriminate].
Qed.

(** The theorem on an answer whose [meals] is null, cut to two. *)
Lemma java_fallback_on_empty_results_witness :
  suggest_indonesian_recipes_by_name
    (fun _ => Answered {| status_code := 200; content := Decoded (JObj [("meals", JNull)]) |})
    "" (Some "Java") 2
  = Ok [fallback_format fallback_soto; fallback_format fallback_gudeg].
Proof.
  apply (proj1 (java_fallback_on_empty_results
    (fun _ => Answered {| status_code := 200; content := Decoded (JObj [("meals", JNull)]) |})
    2 eq_refl)).
Defined.



End ProvidersFacts.

(* ===================================================================== *)
(** * Facts about recommendations *)
(* ===================================================================== *)

Module RecommendFacts.
Import Py Net Providers Recommend PyFacts.

Lemma unique_loop_spec (seen : gset string) (acc l : list recipe) :
  unique_loop seen acc l
  = (acc ++ filter (fun x => recipe_id x ∉ seen) (first_occurrences l))%list.
Proof.
  revert seen acc. induction l as [|r l IH]; intros seen acc; simpl.
  - rewrite filter_nil, app_nil_r. reflexivity.
  - destruct (decide (recipe_id r ∈ seen)) as [Hin|Hnin].
    + rewrite IH, filter_cons_False by auto. f_equal.
      rewrite list_filter_filter. apply list_filter_iff.
      intros x. split; [|tauto]. intros Hx. split; [exact Hx|]. congruence.
    + rewrite IH, filter_cons_True by auto. rewrite <- app_assoc. simpl. do 2 f_equal.
      rewrite list_filter_filter. apply list_filter_iff.
      intros x. rewrite elem_of_union, elem_of_singleton. tauto.
Qed.

Lemma unique_first_occurrences (l : list recipe) : unique l = first_occurrences l.
Proof.
  unfold unique. rewrite unique_loop_spec. simpl.
  induction (first_occurrences l) as [|x k IH]; [reflexivity|].
  rewrite filter_cons_True by set_solver. f_equal. exact IH.
Qed.

Lemma first_occurrences_sublist (l : list recipe) : first_occurrences l `sublist_of` l.
Proof.
  induction l as [|r l IH]; simpl; [constructor|].
  apply sublist_skip. etransitivity; [apply sublist_filter | exact IH].
Qed.

Lemma first_occurrences_NoDup (l : list recipe) :
  NoDup (recipe_id <$> first_occurrences l).
Proof.
  induction l as [|r l IH]; simpl; [constructor|].
  apply NoDup_cons. split.
  - rewrite list_elem_of_fmap. intros [x [Hx Hin]].
    apply list_elem_of_filter in Hin as [Hne _]. congruence.
  - apply (sublist_NoDup _ (recipe_id <$> first_occurrences l)); [exact IH|].
    apply fmap_sublist, sublist_filter.
Qed.

Lemma first_occurrences_elem (l : list recipe) (r : recipe) :
  r ∈ first_occurrences l
  <-> exists l1 l2, l = (l1 ++ r :: l2)%list /\ recipe_id r ∉ recipe_id <$> l1.
Proof.
  induction l as [|x l IH]; simpl.
  - split; [intros H; inversion H|]. intros [l1 [l2 [H _]]]. destruct l1; discriminate.
  - rewrite elem_of_cons, list_elem_of_filter, IH. split.
    + intros [-> | [Hne [l1 [l2 [-> Hnin]]]]].
      * exists [], l. split; [reflexivity | set_solver].
      * exists (x :: l1), l2. split; [reflexivity|].
        rewrite fmap_cons, not_elem_of_cons. auto.
    + intros [l1 [l2 [H Hnin]]]. destruct l1 as [|y l1]; simpl in H.
      * injection H as -> ->. left. reflexivity.
      * injection H as -> ->. right.
        rewrite fmap_cons, not_elem_of_cons in Hnin. destruct Hnin as [Hne Hnin].
        split; [exact Hne|]. exists l1, l2. auto.
Qed.

(** C4: the recommendation is the candidates deduplicated and then cut
    to [number]; deduplication keeps exactly the first occurrence of
    every id, in the order of the candidates, and looks at the id
    alone: of two recipes from different sources with one id only the
    first is kept. *)
Theorem dedup_by_id_then_truncate (wd : world) (w : weather)
    (region : option string) (number : nat) :
  get_recommendations_based_on_weather_and_region wd (Some w) region number
  = (candidates wd w region ≫= fun l => Ok (take number (unique l)))
  /\ (forall l : list recipe,
        unique l `sublist_of` l
        /\ NoDup (recipe_id <$> unique l)
        /\ (forall r, r ∈ unique l
              <-> exists l1 l2, l = (l1 ++ r :: l2)%list
                                /\ recipe_id r ∉ recipe_id <$> l1))
  /\ (forall a b : recipe,
        recipe_id a = recipe_id b -> recipe_source a <> recipe_source b ->
        unique [a; b] = [a]).
Proof.
  split; [reflexivity|]. split.
  - intros l. rewrite unique_first_occurrences.
    split; [apply first_occurrences_sublist|].
    split; [apply first_occurrences_NoDup|]. apply first_occurrences_elem.
  - intros a b Hid _. rewrite unique_first_occurrences. simpl.
    rewrite filter_cons_False by (intros H; apply H; symmetry; exact Hid).
    reflexivity.
Qed.

(** Two providers, one id: the first recipe stays. *)
Lemma dedup_by_id_then_truncate_witness :
  unique [ {| recipe_id := "52772"; recipe_title := JStr "Teriyaki";
              recipe_source := "spoonacular"; recipe_image := JStr placeholder |};
           {| recipe_id := "52772"; recipe_title := JStr "Soto";
              recipe_source := "themealdb"; recipe_image := JStr placeholder |} ]
  = [ {| recipe_id := "52772"; recipe_title := JStr "Teriyaki";
         recipe_source := "spoonacular"; recipe_image := JStr placeholder |} ].
Proof.
  apply (proj2 (proj2 (dedup_by_id_then_truncate
    {| net := fun _ => TransportError; user_recipes := []; rnd := fun _ => O |}
    {| city := "Jakarta"; condition := "clear sky"; temp := inject_Z 25;
       weather_main := "Clear" |} None 3))).
  - reflexivity.
  - discriminate.
Defined.

(** ** The weather rule *)



Lemma sample_length {A} (rnd : nat -> nat) (k : nat) (population : list A) :
  (k <= length population)%nat -> length (sample rnd population k) = k.
Proof.
  revert population. induction k as [|k IH]; intros population Hk; [reflexivity|].
  cbn [sample].
  assert (Hj : (rnd k mod length population < length population)%nat)
    by (apply Nat.mod_upper_bound; lia).
  destruct (lookup_lt_is_Some_2 _ _ Hj) as [x Hx]. rewrite Hx. simpl. f_equal.
  apply IH. rewrite length_delete by eauto. lia.
Qed.








End RecommendFacts.

(* ===================================================================== *)
(** * Facts about related searches *)
(* ===================================================================== *)

Module RelatedFacts.
Import Py Recommend Related PyFacts.

Section sorting.
Context {A : Type} (key : A -> Z).





End sorting.

(** ** The dict of the deduplication *)













End RelatedFacts.

(* ===================================================================== *)
(** * Facts about the interaction ledger *)
(* ===================================================================== *)

Module LedgerFacts.
Import Py Recommend Ledger.

Lemma matches_refl (u : Z) (src rid kind : string) (n : Z) :
  matches u src rid kind
    {| i_id := n; user_id := u; recipe_source := src; recipe_id := rid;
       interaction_type := kind |} = true.
Proof. unfold matches. simpl. rewrite Z.eqb_refl, !String.eqb_refl. reflexivity. Qed.

Lemma find_app_None {A} (p : A -> bool) (l1 l2 : list A) :
  List.find p l1 = None -> List.find p (l1 ++ l2) = List.find p l2.
Proof.
  induction l1 as [|x l1 IH]; simpl; [reflexivity|].
  destruct (p x); [discriminate | exact IH].
Qed.

Lemma next_id_fresh (l : list Interaction) (i : Interaction) :
  In i l -> i_id i < next_id l.
Proof.
  unfold next_id. induction l as [|x l IH]; simpl; [contradiction|].
  intros [-> | H]; [lia|]. specialize (IH H). lia.
Qed.

Lemma filter_fresh (l : list Interaction) (e : Interaction) :
  i_id e = next_id l ->
  List.filter (fun i => negb (i_id i =? i_id e)) (l ++ [e]) = l.
Proof.
  intros He. rewrite List.filter_app. simpl. rewrite Z.eqb_refl. simpl.
  rewrite app_nil_r. apply forallb_filter_id. apply forallb_forall.
  intros i Hi. apply next_id_fresh in Hi. apply negb_true_iff, Z.eqb_neq. lia.
Qed.

Lemma get_write (d : database) (rid : string) (r r' : UserRecipe) :
  UserRecipe_get d rid = Some r -> ur_id r' = ur_id r ->
  UserRecipe_get (write_recipe r' d) rid = Some r'.
Proof.
  unfold UserRecipe_get, write_recipe. simpl. intros H Hid.
  pose proof (find_some _ _ H) as [_ Hr].
  induction (recipes d) as [|x l IH]; simpl in *; [discriminate|].
  destruct (Z.eqb_spec (ur_id x) (ur_id r')) as [E|E].
  - rewrite Hid. rewrite Hr. reflexivity.
  - destruct (String.eqb (pretty (ur_id x)) rid) eqn:Ex.
    + injection H as ->. congruence.
    + apply IH. exact H.
Qed.

Lemma do_counter_id kind r : ur_id (do_counter kind r) = ur_id r.
Proof. unfold do_counter. repeat destruct (String.eqb _ _); reflexivity. Qed.

Lemma undo_counter_id kind r : ur_id (undo_counter kind r) = ur_id r.
Proof. unfold undo_counter. repeat destruct (String.eqb _ _); reflexivity. Qed.

Lemma enter_clear (st : state) (rq : form) :
  guard_set (session st) (session_key rq) = false ->
  enter st rq
  = Some {| db := db st; session := <[session_key rq := JBool true]> (session st) |}.
Proof. unfold enter. intros ->. reflexivity. Qed.

Lemma interact_no_faults (st : state) (rq : form) :
  guard_set (session st) (session_key rq) = false ->
  (source rq = "user" -> is_Some (UserRecipe_get (db st) (recipe rq))) ->
  db (interact no_faults st rq).1 = toggled rq (db st)
  /\ session (interact no_faults st rq).1 = delete (session_key rq) (session st).
Proof.
  intros Hg Hr. unfold interact. rewrite enter_clear by exact Hg.
  unfold finish, try_except_rollback, try_body, toggled. simpl.
  destruct (String.eqb_spec (source rq) "user") as [E|E]; simpl.
  - destruct (Hr E) as [r Hget]. rewrite Hget. simpl.
    split; [reflexivity|].
    apply delete_insert_eq.
  - split; [reflexivity | apply delete_insert_eq].
Qed.

Lemma active_false (d : database) (rq : form) :
  active d rq = false
  <-> first_interaction d (current_user rq) (source rq) (recipe rq) (action rq) = None.
Proof.
  unfold active. rewrite bool_decide_eq_false.
  destruct (first_interaction _ _ _ _ _) as [e|].
  - split; [intros H; exfalso; apply H; eauto | discriminate].
  - split; [reflexivity | intros _ [x Hx]; discriminate].
Qed.

Lemma active_true (d : database) (rq : form) :
  active d rq = true
  <-> is_Some (first_interaction d (current_user rq) (source rq) (recipe rq) (action rq)).
Proof. unfold active. apply bool_decide_eq_true. Qed.

Lemma interactions_write r d : interactions (write_recipe r d) = interactions d.
Proof. reflexivity. Qed.

Lemma toggled_absent_interactions (rq : form) (d : database) :
  active d rq = false ->
  interactions (toggled rq d) = (interactions d ++ [new_row rq d])%list.
Proof.
  intros H. apply active_false in H. unfold toggled. rewrite H. simpl.
  destruct (if String.eqb (source rq) "user" then _ else _); reflexivity.
Qed.

Lemma toggled_absent_first (rq : form) (d : database) :
  active d rq = false ->
  first_interaction (toggled rq d) (current_user rq) (source rq) (recipe rq) (action rq)
  = Some (new_row rq d).
Proof.
  intros H. unfold first_interaction. rewrite toggled_absent_interactions by exact H.
  apply active_false in H. unfold first_interaction in H.
  rewrite find_app_None by exact H. simpl. unfold new_row.
  rewrite matches_refl. reflexivity.
Qed.

Lemma toggled_active_interactions (rq : form) (d : database) (e : Interaction) :
  first_interaction d (current_user rq) (source rq) (recipe rq) (action rq) = Some e ->
  interactions (toggled rq d)
  = List.filter (fun i => negb (i_id i =? i_id e)) (interactions d).
Proof.
  intros H. unfold toggled. rewrite H. simpl.
  destruct (if String.eqb (source rq) "user" then _ else _); reflexivity.
Qed.

Lemma toggled_twice_interactions (rq : form) (d : database) :
  active d rq = false ->
  interactions (toggled rq (toggled rq d)) = interactions d.
Proof.
  intros H.
  rewrite (toggled_active_interactions rq _ _ (toggled_absent_first rq d H)).
  rewrite toggled_absent_interactions by exact H.
  apply filter_fresh. reflexivity.
Qed.

Lemma toggled_get_user (rq : form) (d : database) (r : UserRecipe) :
  source rq = "user" -> UserRecipe_get d (recipe rq) = Some r ->
  UserRecipe_get (toggled rq d) (recipe rq)
  = Some (if active d rq then undo_counter (action rq) r else do_counter (action rq) r).
Proof.
  intros Hs Hr. unfold toggled, active. rewrite Hs, Hr. simpl.
  destruct (first_interaction d _ _ _ _) as [e|]; simpl.
  - apply (get_write _ _ r); [exact Hr | apply undo_counter_id].
  - apply (get_write _ _ r); [exact Hr | apply do_counter_id].
Qed.

Lemma toggled_recipes_other (rq : form) (d : database) :
  source rq <> "user" -> recipes (toggled rq d) = recipes d.
Proof.
  intros Hs. unfold toggled. apply String.eqb_neq in Hs. rewrite Hs.
  destruct (first_interaction d _ _ _ _); reflexivity.
Qed.

Lemma toggled_is_Some (rq : form) (d : database) :
  (source rq = "user" -> is_Some (UserRecipe_get d (recipe rq))) ->
  (source rq = "user" -> is_Some (UserRecipe_get (toggled rq d) (recipe rq))).
Proof.
  intros H Hs. destruct (H Hs) as [r Hr].
  rewrite (toggled_get_user rq d r Hs Hr). eauto.
Qed.

Lemma guard_clear_after (st : state) (rq : form) :
  guard_set (delete (session_key rq) (session st)) (session_key rq) = false.
Proof. unfold guard_set. rewrite lookup_delete_eq. reflexivity. Qed.

(** C5: a toggle on an absent key inserts the interaction; a second one
    removes it again.  For a user recipe and the action "like" the
    first toggle takes the counter from [L] to [L + 1] and the second
    takes it back (to [L], a counter never being negative); a toggle
    that removes an interaction while the counter is 0 leaves it at 0.
    The recipes are untouched for any other source. *)
Theorem toggle_twice_returns :
  (forall st rq,
     guard_set (session st) (session_key rq) = false ->
     active (db st) rq = false ->
     (source rq = "user" -> is_Some (UserRecipe_get (db st) (recipe rq))) ->
     let st1 := (interact no_faults st rq).1 in
     let st2 := (interact no_faults st1 rq).1 in
     active (db st1) rq = true
     /\ active (db st2) rq = false
     /\ interactions (db st2) = interactions (db st))
  /\ (forall st rq r,
        guard_set (session st) (session_key rq) = false ->
        active (db st) rq = false ->
        source rq = "user" -> action rq = "like" ->
        UserRecipe_get (db st) (recipe rq) = Some r ->
        let st1 := (interact no_faults st rq).1 in
        let st2 := (interact no_faults st1 rq).1 in
        likes_of (db st1) (recipe rq) = Some (ur_likes r + 1)
        /\ likes_of (db st2) (recipe rq) = Some (Z.max 0 (ur_likes r))
        /\ (0 <= ur_likes r -> likes_of (db st2) (recipe rq) = Some (ur_likes r)))
  /\ (forall st rq r,
        guard_set (session st) (session_key rq) = false ->
        active (db st) rq = true ->
        source rq = "user" -> action rq = "like" ->
        UserRecipe_get (db st) (recipe rq) = Some r ->
        let st1 := (interact no_faults st rq).1 in
        likes_of (db st1) (recipe rq) = Some (Z.max 0 (ur_likes r - 1))
        /\ (ur_likes r = 0 -> likes_of (db st1) (recipe rq) = Some 0))
  /\ (forall st rq,
        guard_set (session st) (session_key rq) = false ->
        source rq <> "user" ->
        recipes (db (interact no_faults st rq).1) = recipes (db st)).
Proof.
  split; [|split; [|split]].
  - intros st rq Hg Ha Hr st1 st2.
    destruct (interact_no_faults st rq Hg Hr) as [Hd1 Hs1].
    assert (Hg1 : guard_set (session st1) (session_key rq) = false)
      by (subst st1; rewrite Hs1; apply guard_clear_after).
    assert (Hr1 : source rq = "user" -> is_Some (UserRecipe_get (db st1) (recipe rq)))
      by (subst st1; rewrite Hd1; apply toggled_is_Some, Hr).
    destruct (interact_no_faults st1 rq Hg1 Hr1) as [Hd2 _].
    subst st2. rewrite Hd2. subst st1. rewrite Hd1.
    split; [|split].
    + apply active_true. rewrite toggled_absent_first by exact Ha. eauto.
    + apply active_false. unfold first_interaction.
      rewrite toggled_twice_interactions by exact Ha. apply active_false, Ha.
    + apply toggled_twice_interactions, Ha.
  - intros st rq r Hg Ha Hsrc Hact Hget st1 st2.
    assert (Hr : source rq = "user" -> is_Some (UserRecipe_get (db st) (recipe rq)))
      by eauto.
    destruct (interact_no_faults st rq Hg Hr) as [Hd1 Hs1].
    assert (Hg1 : guard_set (session st1) (session_key rq) = false)
      by (subst st1; rewrite Hs1; apply guard_clear_after).
    assert (Hr1 : source rq = "user" -> is_Some (UserRecipe_get (db st1) (recipe rq)))
      by (subst st1; rewrite Hd1; apply toggled_is_Some, Hr).
    destruct (interact_no_faults st1 rq Hg1 Hr1) as [Hd2 _].
    assert (H1 : UserRecipe_get (db st1) (recipe rq) = Some (do_counter "like" r)).
    { subst st1. rewrite Hd1, (toggled_get_user rq _ r Hsrc Hget), Ha, Hact. reflexivity. }
    assert (Ha1 : active (db st1) rq = true).
    { subst st1. rewrite Hd1. apply active_true.
      rewrite toggled_absent_first by exact Ha. eauto. }
    assert (H2 : likes_of (db st2) (recipe rq) = Some (Z.max 0 (ur_likes r))).
    { subst st2. unfold likes_of. rewrite Hd2, (toggled_get_user rq _ _ Hsrc H1), Ha1, Hact.
      simpl. do 2 f_equal. lia. }
    split; [|split].
    + unfold likes_of. rewrite H1. reflexivity.
    + exact H2.
    + intros HL. rewrite H2. f_equal. lia.
  - intros st rq r Hg Ha Hsrc Hact Hget st1.
    assert (Hr : source rq = "user" -> is_Some (UserRecipe_get (db st) (recipe rq)))
      by eauto.
    destruct (interact_no_faults st rq Hg Hr) as [Hd1 _].
    assert (H1 : likes_of (db st1) (recipe rq) = Some (Z.max 0 (ur_likes r - 1))).
    { subst st1. unfold likes_of.
      rewrite Hd1, (toggled_get_user rq _ r Hsrc Hget), Ha, Hact. reflexivity. }
    split; [exact H1|]. intros H0. rewrite H1, H0. reflexivity.
  - intros st rq Hg Hsrc.
    assert (Hr : source rq = "user" -> is_Some (UserRecipe_get (db st) (recipe rq)))
      by (intros E; contradiction).
    destruct (interact_no_faults st rq Hg Hr) as [Hd1 _].
    rewrite Hd1. apply toggled_recipes_other, Hsrc.
Qed.

(** A like and its undo on a recipe with three likes. *)
Lemma toggle_twice_returns_witness :
  let st := {| db := {| interactions := [];
                        recipes := [ {| ur_id := 7; ur_title := "Sayur Lodeh";
                                        ur_image := None; ur_likes := 3; ur_saves := 0 |} ] |};
               session := ∅ |} in
  let rq := {| current_user := 1; source := "user"; recipe := "7"; action := "like" |} in
  let st1 := (interact no_faults st rq).1 in
  let st2 := (interact no_faults st1 rq).1 in
  likes_of (db st1) "7" = Some 4
  /\ likes_of (db st2) "7" = Some (Z.max 0 3)
  /\ (0 <= 3 -> likes_of (db st2) "7" = Some 3).
Proof.
  intros st rq.
  apply (proj1 (proj2 toggle_twice_returns) st rq
           {| ur_id := 7; ur_title := "Sayur Lodeh"; ur_image := None;
              ur_likes := 3; ur_saves := 0 |});
    reflexivity.
Defined.

(** The counters never become negative, which is why a counter [L] can
    be taken to be at least 0. *)
Lemma toggled_counters_nonnegative (rq : form) (d : database) :
  Forall (fun r => 0 <= ur_likes r /\ 0 <= ur_saves r) (recipes d) ->
  Forall (fun r => 0 <= ur_likes r /\ 0 <= ur_saves r) (recipes (toggled rq d)).
Proof.
  intros H. unfold toggled.
  assert (Hw : forall r' d', recipes d' = recipes d ->
             0 <= ur_likes r' /\ 0 <= ur_saves r' ->
             Forall (fun r => 0 <= ur_likes r /\ 0 <= ur_saves r)
                    (recipes (write_recipe r' d'))).
  { intros r' d' E Hr'. simpl. rewrite E. apply Forall_fmap.
    eapply Forall_impl; [exact H|]. intros x Hx. simpl.
    destruct (ur_id x =? ur_id r'); assumption. }
  destruct (String.eqb (source rq) "user"); simpl.
  - destruct (UserRecipe_get d (recipe rq)) as [r|] eqn:Hr.
    + assert (Hin : 0 <= ur_likes r /\ 0 <= ur_saves r).
      { apply find_some in Hr as [Hin _].
        rewrite List.Forall_forall in H. apply H, Hin. }
      destruct (first_interaction d _ _ _ _); simpl; apply Hw; try reflexivity.
      * unfold undo_counter. repeat destruct (String.eqb _ _); simpl; lia.
      * unfold do_counter. repeat destruct (String.eqb _ _); simpl; lia.
    + destruct (first_interaction d _ _ _ _); exact H.
  - destruct (first_interaction d _ _ _ _); exact H.
Qed.

Lemma interact_db (f : faults) (st : state) (rq : form) :
  db (interact f st rq).1 = db st \/ db (interact f st rq).1 = toggled rq (db st).
Proof.
  unfold interact, enter. destruct (guard_set _ _); [left; reflexivity|].
  unfold finish, try_except_rollback, try_body, commit, toggled. simpl.
  destruct (query_fails f); [left; reflexivity|].
  destruct (_ && _)%bool; [left; reflexivity|].
  destruct (commit_fails f); [left; reflexivity|].
  destruct (readback_fails f); right; reflexivity.
Qed.

Lemma counters_stay_nonnegative (f : faults) (st : state) (rq : form) :
  Forall (fun r => 0 <= ur_likes r /\ 0 <= ur_saves r) (recipes (db st)) ->
  Forall (fun r => 0 <= ur_likes r /\ 0 <= ur_saves r)
         (recipes (db (interact f st rq).1)).
Proof.
  intros H. destruct (interact_db f st rq) as [-> | ->];
    [exact H | apply toggled_counters_nonnegative, H].
Qed.



(** Every exit of a toggle is reached by some request: the counts, the
    missing recipe, the failure. *)
Example exits_of_a_toggle :
  let st := {| db := {| interactions := []; recipes := [] |}; session := ∅ |} in
  (interact no_faults st
     {| current_user := 1; source := "fallback"; recipe := "soto"; action := "like" |}).2
  = Counts 1 0 true false
  /\ (interact no_faults st
        {| current_user := 1; source := "user"; recipe := "9"; action := "like" |}).2
     = NotFound
  /\ (interact {| query_fails := true; commit_fails := false; readback_fails := false |} st
        {| current_user := 1; source := "fallback"; recipe := "soto"; action := "like" |}).2
     = ServerError.
Proof. vm_compute. auto. Qed.

(** C7: when the commit fails, the changes the toggle had queued are
    dropped, the storage holds what it held before, the caller gets the
    generic failure, and the guard key is gone. *)
Theorem commit_failure_rolls_back (f : faults) (st : state) (rq : form) :
  guard_set (session st) (session_key rq) = false ->
  query_fails f = false ->
  commit_fails f = true ->
  (source rq = "user" -> is_Some (UserRecipe_get (db st) (recipe rq))) ->
  try_body f rq {| stored := db st; pending := db st |}
  = ({| stored := db st; pending := toggled rq (db st) |}, Raise SQLAlchemyError)
  /\ try_except_rollback f rq {| stored := db st; pending := db st |}
     = ({| stored := db st; pending := db st |}, ServerError)
  /\ interact f st rq
     = ({| db := db st; session := delete (session_key rq) (session st) |}, ServerError)
  /\ session (interact f st rq).1 !! session_key rq = None.
Proof.
  intros Hg Hq Hc Hr.
  assert (Hb : try_body f rq {| stored := db st; pending := db st |}
               = ({| stored := db st; pending := toggled rq (db st) |},
                  Raise SQLAlchemyError)).
  { unfold try_body, commit, toggled. simpl. rewrite Hq, Hc.
    destruct (String.eqb_spec (source rq) "user") as [E|E]; simpl; [|reflexivity].
    destruct (Hr E) as [r Hget]. rewrite Hget. reflexivity. }
  assert (Ht : try_except_rollback f rq {| stored := db st; pending := db st |}
               = ({| stored := db st; pending := db st |}, ServerError)).
  { unfold try_except_rollback. rewrite Hb. reflexivity. }
  assert (Hi : interact f st rq
               = ({| db := db st; session := delete (session_key rq) (session st) |},
                  ServerError)).
  { unfold interact. rewrite enter_clear by exact Hg. unfold finish. simpl.
    rewrite Ht. simpl. rewrite delete_insert_eq. reflexivity. }
  split; [exact Hb|]. split; [exact Ht|]. split; [exact Hi|].
  rewrite Hi. simpl. apply lookup_delete_eq.
Qed.

(** A like whose commit fails. *)
Lemma commit_failure_rolls_back_witness :
  let st := {| db := {| interactions := [];
                        recipes := [ {| ur_id := 7; ur_title := "Sayur Lodeh";
                                        ur_image := None; ur_likes := 3; ur_saves := 0 |} ] |};
               session := ∅ |} in
  let rq := {| current_user := 1; source := "user"; recipe := "7"; action := "like" |} in
  let f := {| query_fails := false; commit_fails := true; readback_fails := false |} in
  interact f st rq
  = ({| db := db st; session := delete (session_key rq) (session st) |}, ServerError).
Proof.
  intros st rq f.
  refine (proj1 (proj2 (proj2 (commit_failure_rolls_back f st rq _ _ _ _))));
    try reflexivity.
  intros _. vm_compute. eauto.
Defined.

End LedgerFacts.

(* ===================================================================== *)
(** * Facts about upload file names *)
(* ===================================================================== *)

Module UploadsFacts.
Import Py PyFacts Uploads.

Lemma prefix_empty (s : string) : String.prefix "" s = true.
Proof. destruct s; reflexivity. Qed.

Lemma dot_in_cons (c : ascii) (s : string) :
  str_in "." (String c s) = (Ascii.eqb c "."%char || str_in "." s)%bool.
Proof.
  cbn [str_in]. f_equal.
  destruct (Ascii.eqb_spec c ".") as [->|Hne].
  - apply prefix_spec. exists s. reflexivity.
  - apply not_true_is_false. intros H. apply prefix_spec in H as [post H].
    rewrite append_cons in H. congruence.
Qed.

Lemma split_last_dot_None (s : string) :
  split_last_dot s = None <-> str_in "." s = false.
Proof.
  induction s as [|c s IH]; [split; reflexivity|].
  cbn [split_last_dot]. rewrite dot_in_cons, orb_false_iff, <- IH.
  destruct (split_last_dot s) as [[a b]|].
  - split; [discriminate | intros [_ H]; discriminate].
  - destruct (Ascii.eqb c "."); [split; [discriminate | intros [H _]; discriminate]|].
    split; auto.
Qed.

Lemma split_last_dot_sound (s a b : string) :
  split_last_dot s = Some (a, b) -> s = a ++ "." ++ b /\ str_in "." b = false.
Proof.
  revert a b. induction s as [|c s IH]; intros a b; cbn [split_last_dot];
    [discriminate|].
  destruct (split_last_dot s) as [[a' b']|] eqn:E.
  - intros [= <- <-]. destruct (IH _ _ eq_refl) as [-> Hb]. auto.
  - destruct (Ascii.eqb_spec c ".") as [->|Hne]; [|discriminate].
    intros [= <- <-]. split; [reflexivity|]. apply split_last_dot_None, E.
Qed.

Lemma split_last_dot_complete (a b : string) :
  str_in "." b = false -> split_last_dot (a ++ "." ++ b) = Some (a, b).
Proof.
  intros Hb. induction a as [|d a IH].
  - rewrite append_nil. change ("." ++ b) with (String "." b).
    cbn [split_last_dot]. rewrite (proj2 (split_last_dot_None b) Hb). reflexivity.
  - rewrite append_cons. cbn [split_last_dot]. rewrite IH. reflexivity.
Qed.

(** Behind the test for a dot the split has two parts, so the
    subscript [[1]] never fails. *)
Lemma rsplit_dot_two (filename : string) :
  str_in "." filename = true ->
  exists stem ext, rsplit_dot filename = [stem; ext].
Proof.
  intros H. unfold rsplit_dot.
  destruct (split_last_dot filename) as [[a b]|] eqn:E; [eauto|].
  apply split_last_dot_None in E. congruence.
Qed.

(** X1: a file name is allowed exactly when it ends in a dot and one of
    the four extensions, in any case; what counts is the text after the
    last dot. *)
Theorem allowed_file_spec (filename : string) :
  allowed_file filename = true
  <-> exists stem ext,
        filename = stem ++ "." ++ ext
        /\ str_in "." ext = false
        /\ In (lower ext) ALLOWED_EXTENSIONS.
Proof.
  unfold allowed_file, rsplit_dot. split.
  - destruct (str_in "." filename) eqn:Hd; [|discriminate].
    destruct (split_last_dot filename) as [[a b]|] eqn:E; [|discriminate].
    cbn [lookup list_lookup]. intros H.
    apply split_last_dot_sound in E as [-> Hb]. exists a, b.
    split; [reflexivity|]. split; [exact Hb|].
    apply existsb_exists in H as [x [Hx Hq]]. apply String.eqb_eq in Hq as <-. exact Hx.
  - intros [stem [ext [-> [Hb Hin]]]].
    assert (Hd : str_in "." (stem ++ "." ++ ext) = true)
      by (apply str_in_spec; exists stem, ext; reflexivity).
    rewrite Hd, (split_last_dot_complete stem ext Hb). cbn [lookup list_lookup].
    apply existsb_exists. exists (lower ext). split; [exact Hin | apply String.eqb_refl].
Qed.

(** What the theorem says of [photo.final.JPG]. *)
Lemma allowed_file_spec_witness : allowed_file "photo.final.JPG" = true.
Proof.
  apply (proj2 (allowed_file_spec "photo.final.JPG")).
  exists "photo.final", "JPG". split; [reflexivity|]. split; [reflexivity|].
  vm_compute. auto.
Defined.

End UploadsFacts.

(* ===================================================================== *)
(** * Facts about the search history *)
(* ===================================================================== *)

Module HistoryFacts.
Import Py PyFacts Related History.

Lemma same_key_new (q c r : string) (n : Z) :
  same_key q c r {| sh_query := q; sh_cuisine := Some c; sh_region := Some r;
                    sh_count := n |} = true.
Proof. unfold same_key. simpl. rewrite !String.eqb_refl. reflexivity. Qed.

Lemma same_key_key_of (q c r : string) (x : SearchHistory) :
  same_key q c r x = true <-> key_of x = (q, Some c, Some r).
Proof.
  unfold same_key, key_of. destruct x as [xq [xc|] [xr|] n]; simpl.
  - rewrite !andb_true_iff, !String.eqb_eq. split.
    + intros [[-> ->] ->]. reflexivity.
    + intros [= -> -> ->]. auto.
  - rewrite andb_false_r. split; discriminate.
  - rewrite andb_false_r. split; discriminate.
  - rewrite andb_false_r. split; discriminate.
Qed.

Lemma find_None_forall {A} (p : A -> bool) (l : list A) :
  List.find p l = None <-> forall x, In x l -> p x = false.
Proof.
  split; [apply find_none|]. induction l as [|x l IH]; [reflexivity|]. simpl.
  intros H. rewrite (H x) by auto. apply IH. intros y Hy. apply H. auto.
Qed.

Lemma find_after {A} (p : A -> bool) (l1 l2 : list A) :
  List.find p l1 = None -> List.find p (l1 ++ l2) = List.find p l2.
Proof.
  induction l1 as [|x l1 IH]; simpl; [reflexivity|].
  destruct (p x); [discriminate | exact IH].
Qed.

Lemma bump_first_app_None (p : SearchHistory -> bool) (rows l : list SearchHistory) :
  List.find p rows = None ->
  bump_first p (rows ++ l) = (rows ++ bump_first p l)%list.
Proof.
  induction rows as [|x rows IH]; simpl; [reflexivity|].
  destruct (p x); [discriminate|]. intros H. rewrite IH by exact H. reflexivity.
Qed.

(** X2: searching [n >= 1] times with a key that has no row leaves one
    row for it, at the end of the table, with [count] [n]. *)
Theorem repeated_search_counts (rows : list SearchHistory) (q c r : string) (n : nat) :
  q <> "" ->
  List.find (same_key q c r) rows = None ->
  after_searches (S n) (Rows rows) q c r
  = Rows (rows ++ [ {| sh_query := q; sh_cuisine := Some c; sh_region := Some r;
                       sh_count := Z.of_nat (S n) |} ]).
Proof.
  intros Hq Hnone. apply String.eqb_neq in Hq.
  induction n as [|n IH].
  - cbn [after_searches]. unfold log_search. rewrite Hq, Hnone. reflexivity.
  - cbn [after_searches] in *. rewrite IH. unfold log_search. rewrite Hq.
    rewrite find_after by exact Hnone. cbn [List.find].
    rewrite same_key_new. cbn [fst].
    rewrite bump_first_app_None by exact Hnone. cbn [bump_first].
    rewrite same_key_new. cbn [sh_query sh_cuisine sh_region sh_count].
    do 4 f_equal. lia.
Qed.

Lemma repeated_search_counts_witness :
  after_searches 3 (Rows []) "soto" "indonesian" "Java"
  = Rows [ {| sh_query := "soto"; sh_cuisine := Some "indonesian";
              sh_region := Some "Java"; sh_count := 3 |} ].
Proof.
  apply (repeated_search_counts [] "soto" "indonesian" "Java" 2);
    [discriminate | reflexivity].
Defined.

Lemma bump_first_keys (p : SearchHistory -> bool) (rows : list SearchHistory) :
  map key_of (bump_first p rows) = map key_of rows.
Proof.
  induction rows as [|x rows IH]; simpl; [reflexivity|].
  destruct (p x); simpl; [reflexivity | rewrite IH; reflexivity].
Qed.

Lemma bump_first_length (p : SearchHistory -> bool) (rows : list SearchHistory) :
  length (bump_first p rows) = length rows.
Proof.
  induction rows as [|x rows IH]; simpl; [reflexivity|].
  destruct (p x); simpl; [reflexivity | rewrite IH; reflexivity].
Qed.

Lemma bump_first_others (q c r : string) (rows : list SearchHistory) :
  List.filter (fun x => negb (same_key q c r x)) (bump_first (same_key q c r) rows)
  = List.filter (fun x => negb (same_key q c r x)) rows.
Proof.
  induction rows as [|x rows IH]; simpl; [reflexivity|].
  destruct (same_key q c r x) eqn:E; simpl.
  - assert (E' : same_key q c r
             {| sh_query := sh_query x; sh_cuisine := sh_cuisine x;
                sh_region := sh_region x; sh_count := sh_count x + 1 |} = true)
      by exact E.
    rewrite E'. reflexivity.
  - rewrite E. simpl. rewrite IH. reflexivity.
Qed.

Lemma bump_first_total (q c r : string) (rows : list SearchHistory) (e : SearchHistory) :
  List.find (same_key q c r) rows = Some e ->
  total_count q c r (bump_first (same_key q c r) rows) = total_count q c r rows + 1.
Proof.
  unfold total_count. induction rows as [|x rows IH]; simpl; [discriminate|].
  destruct (same_key q c r x) eqn:E; simpl.
  - intros _.
    assert (E' : same_key q c r
             {| sh_query := sh_query x; sh_cuisine := sh_cuisine x;
                sh_region := sh_region x; sh_count := sh_count x + 1 |} = true)
      by exact E.
    rewrite E'. simpl. lia.
  - intros H. rewrite E. exact (IH H).
Qed.

(** X3: one search adds exactly one to the counts of its key, creates at
    most one row, and leaves the rows of every other key as they
    were. *)
Theorem search_counts_once (rows : list SearchHistory) (q c r : string) :
  q <> "" ->
  exists rows',
    log_search (Rows rows) (Some q) c r = (Rows rows', false)
    /\ total_count q c r rows' = total_count q c r rows + 1
    /\ List.filter (fun x => negb (same_key q c r x)) rows'
       = List.filter (fun x => negb (same_key q c r x)) rows
    /\ length rows'
       = (length rows + if existsb (same_key q c r) rows then 0 else 1)%nat.
Proof.
  intros Hq. apply String.eqb_neq in Hq. unfold log_search. rewrite Hq.
  destruct (List.find (same_key q c r) rows) as [e|] eqn:E.
  - eexists. split; [reflexivity|].
    split; [eapply bump_first_total; exact E|].
    split; [apply bump_first_others|].
    rewrite bump_first_length.
    apply find_some in E as [Hin He].
    rewrite (proj2 (existsb_exists _ _)) by eauto. lia.
  - eexists. split; [reflexivity|].
    assert (Hnone : forall x, In x rows -> same_key q c r x = false)
      by (apply find_None_forall; exact E).
    split; [|split].
    + unfold total_count. rewrite List.filter_app, map_app, fold_right_app.
      cbn [List.filter]. unfold new_search. rewrite same_key_new. simpl.
      assert (Hf : List.filter (same_key q c r) rows = []).
      { clear -Hnone. induction rows as [|x rows IH]; [reflexivity|]. simpl.
        rewrite (Hnone x) by (left; reflexivity). apply IH.
        intros y Hy. apply Hnone. right. exact Hy. }
      rewrite Hf. reflexivity.
    + rewrite List.filter_app. cbn [List.filter]. unfold new_search.
      rewrite same_key_new. simpl. apply app_nil_r.
    + rewrite length_app. simpl.
      destruct (existsb (same_key q c r) rows) eqn:Ex; [|reflexivity].
      apply existsb_exists in Ex as [x [Hin Hx]]. rewrite (Hnone x Hin) in Hx.
      discriminate.
Qed.

Lemma search_counts_once_witness :
  exists rows',
    log_search (Rows [new_search "soto" "indonesian" "Java"])
               (Some "soto") "indonesian" "Java" = (Rows rows', false)
    /\ total_count "soto" "indonesian" "Java" rows'
       = total_count "soto" "indonesian" "Java" [new_search "soto" "indonesian" "Java"] + 1
    /\ List.filter (fun x => negb (same_key "soto" "indonesian" "Java" x)) rows'
       = List.filter (fun x => negb (same_key "soto" "indonesian" "Java" x))
           [new_search "soto" "indonesian" "Java"]
    /\ length rows'
       = (length [new_search "soto" "indonesian" "Java"]
          + if existsb (same_key "soto" "indonesian" "Java")
                 [new_search "soto" "indonesian" "Java"] then 0 else 1)%nat.
Proof.
  apply (search_counts_once [new_search "soto" "indonesian" "Java"]
           "soto" "indonesian" "Java").
  discriminate.
Defined.

(** X4: the table keeps one row per (query, cuisine, region): if no two
    rows share a key before a search is logged, none do after it,
    whatever the request and whether or not the store can be read. *)
Theorem one_row_per_key (rows : list SearchHistory) (query : option string)
    (c r : string) :
  NoDup (map key_of rows) ->
  exists rows',
    (log_search (Rows rows) query c r).1 = Rows rows'
    /\ NoDup (map key_of rows').
Proof.
  intros Hd. unfold log_search. destruct query as [q|]; [|eauto].
  destruct (String.eqb q ""); [eauto|].
  destruct (List.find (same_key q c r) rows) as [e|] eqn:E; cbn [fst];
    eexists; (split; [reflexivity|]).
  - rewrite bump_first_keys. exact Hd.
  - rewrite map_app. apply NoDup_app. split; [exact Hd|]. split.
    + intros k Hk Hnew. apply list_elem_of_singleton in Hnew. subst k.
      apply list_elem_of_In, in_map_iff in Hk as [x [Hx Hin]].
      assert (Hs : same_key q c r x = true) by (apply same_key_key_of; exact Hx).
      rewrite (proj1 (find_None_forall _ _) E x Hin) in Hs. discriminate.
    + apply NoDup_singleton.
Qed.

Lemma one_row_per_key_witness :
  exists rows',
    (log_search (Rows [new_search "soto" "indonesian" "Java"])
       (Some "soto") "western" "All Regions").1 = Rows rows'
    /\ NoDup (map key_of rows').
Proof.
  apply (one_row_per_key [new_search "soto" "indonesian" "Java"]).
  apply NoDup_cons. split; [apply not_elem_of_nil | apply NoDup_nil_2].
Defined.

End HistoryFacts.

(* ===================================================================== *)
(** * Facts about the regional search and the catalogs *)
(* ===================================================================== *)

Module RegionalFacts.
Import Py Net Providers PyFacts ProvidersFacts Catalogs RegionalSpec.

Lemma lower_nonempty (s : string) : s <> "" -> lower s <> "".
Proof. destruct s; [contradiction | discriminate]. Qed.

Lemma region_filter_Some (region : option string) (rg : string) :
  region_filter region = Some rg -> region = Some rg /\ rg <> "" /\ rg <> "All Regions".
Proof.
  unfold region_filter. destruct region as [s|]; [|discriminate].
  destruct (String.eqb_spec s "") as [->|H1]; [discriminate|].
  destruct (String.eqb_spec s "All Regions") as [->|H2]; [discriminate|].
  simpl. intros [= <-]. auto.
Qed.

(** On a catalog entry the region test is the comparison of regions. *)
Lemma region_matches_catalog (rg : string) (r : fallback_recipe) :
  rg <> "" -> region_matches rg (as_dict r) = Ok (in_region rg r).
Proof.
  intros H. apply lower_nonempty in H.
  unfold region_matches, field_contains, region_equals, in_region, as_dict. simpl.
  destruct (lower rg); [contradiction | reflexivity].
Qed.

Lemma filter_each_region_catalog (rg : string) (l : list fallback_recipe) :
  rg <> "" ->
  filter_each (region_matches rg) (map as_dict l)
  = Ok (map as_dict (List.filter (in_region rg) l)).
Proof.
  intros H. induction l as [|r l IH]; [reflexivity|].
  cbn [map filter_each List.filter]. rewrite region_matches_catalog, IH by exact H.
  cbn [mbind result_bind]. destruct (in_region rg r); reflexivity.
Qed.

Lemma filter_both (q rg : string) (l : list fallback_recipe) :
  List.filter (fun r => (fallback_match q r
                         && String.eqb (lower (fb_region r)) (lower rg))%bool) l
  = List.filter (in_region rg) (List.filter (fallback_match q) l).
Proof.
  induction l as [|r l IH]; [reflexivity|]. cbn [List.filter].
  destruct (fallback_match q r); simpl; [|exact IH].
  unfold in_region at 1. rewrite IH. reflexivity.
Qed.

Lemma filter_by_region_catalog (q rg : string) (region : option string) (number : nat) :
  region_filter region = Some rg ->
  filter_by_region q region number (catalog_by_title q)
  = Ok (take number (map as_dict (hits q rg))).
Proof.
  intros Hr. destruct (region_filter_Some _ _ Hr) as [_ [Hne _]].
  unfold filter_by_region, catalog_by_title. rewrite Hr.
  rewrite filter_each_region_catalog by exact Hne. cbn [mbind result_bind].
  rewrite filter_both. fold (hits q rg).
  destruct (map as_dict (hits q rg)); reflexivity.
Qed.

Lemma format_results_catalog (q : string) (number : nat) (l : list fallback_recipe) :
  format_results q number (map as_dict l)
  = Ok (match map fallback_format l with
        | [] => fallback_by_title q number
        | out => out
        end).
Proof.
  unfold format_results. rewrite format_catalog. cbn [mbind result_bind].
  destruct (map fallback_format l); reflexivity.
Qed.

Lemma regional_on_empty_results (net : http) (query : string)
    (region : option string) (number : nat) :
  no_usable_results (net (TheMealDBSearch (lower (strip query)))) = true ->
  suggest_indonesian_recipes_by_name net query region number
  = (filter_by_region (lower (strip query)) region number
       (catalog_by_title (lower (strip query)))
     ≫= format_results (lower (strip query)) number).
Proof.
  intros H.
  unfold suggest_indonesian_recipes_by_name, try_except, requests_get. cbv zeta.
  unfold no_usable_results in H.
  destruct (net (TheMealDBSearch (lower (strip query)))) as [r|]; [|discriminate].
  cbn beta iota delta [mbind result_bind].
  destruct (read_meals r) as [v|e] eqn:Ev; [|discriminate].
  apply negb_true_iff in H. rewrite (read_meals_falsy r v Ev H).
  cbn beta iota zeta delta [mbind result_bind iter for_each truthy negb].
  destruct (catalog_stages_return (lower (strip query)) region number
              (List.filter (fallback_match (lower (strip query))) fallback_recipes))
    as [out Hout].
  fold (catalog_by_title (lower (strip query))) in Hout.
  unfold mbind, result_bind in Hout.
  destruct (filter_by_region _ _ _ _) as [x|e]; [|discriminate].
  cbn beta iota delta [mbind result_bind]. rewrite Hout. reflexivity.
Qed.

Lemma transport_error_catalog (net : http) (query : string)
    (region : option string) (number : nat) :
  net (TheMealDBSearch (lower (strip query))) = TransportError ->
  suggest_indonesian_recipes_by_name net query region number
  = Ok (fallback_by_title (lower (strip query)) number).
Proof.
  intros H.
  unfold suggest_indonesian_recipes_by_name, try_except, requests_get.
  cbv zeta. rewrite H. reflexivity.
Qed.

(** With a region filter, on an answer without usable results: the
    catalog entries by title and region, and by title alone when there
    are none. *)
Lemma regional_with_filter (net : http) (query : string) (region : option string)
    (number : nat) (rg : string) :
  region_filter region = Some rg ->
  no_usable_results (net (TheMealDBSearch (lower (strip query)))) = true ->
  suggest_indonesian_recipes_by_name net query region number
  = Ok (match take number (map fallback_format (hits (lower (strip query)) rg)) with
        | [] => fallback_by_title (lower (strip query)) number
        | out => out
        end).
Proof.
  intros Hr H. rewrite (regional_on_empty_results net query region number H).
  rewrite (filter_by_region_catalog (lower (strip query)) rg region number Hr).
  cbn [mbind result_bind]. rewrite fmap_take', format_results_catalog.
  rewrite <- fmap_take'. reflexivity.
Qed.

(** Without a region filter, on an answer without usable results: the
    catalog entries by title. *)
Lemma regional_without_filter (net : http) (query : string) (region : option string)
    (number : nat) :
  region_filter region = None ->
  no_usable_results (net (TheMealDBSearch (lower (strip query)))) = true ->
  suggest_indonesian_recipes_by_name net query region number
  = Ok (fallback_by_title (lower (strip query)) number).
Proof.
  intros Hr H. rewrite (regional_on_empty_results net query region number H).
  unfold filter_by_region. rewrite Hr. cbn [mbind result_bind].
  unfold catalog_by_title. rewrite fmap_take', format_results_catalog.
  rewrite <- fmap_take'. fold (fallback_by_title (lower (strip query)) number).
  destruct (fallback_by_title (lower (strip query)) number); reflexivity.
Qed.



Lemma filter_by_region_length (q : string) (region : option string) (number : nat)
    (results out : list json) :
  filter_by_region q region number results = Ok out -> (length out <= number)%nat.
Proof.
  unfold filter_by_region. destruct (region_filter region) as [rg|].
  - intros H. apply bind_Ok in H as [filtered [_ H]]. injection H as <-.
    rewrite length_take. lia.
  - intros [= <-]. rewrite length_take. lia.
Qed.

Lemma fallback_by_title_length (q : string) (number : nat) :
  (length (fallback_by_title q number) <= number)%nat.
Proof. unfold fallback_by_title. rewrite length_take. lia. Qed.

Lemma format_results_length (q : string) (number : nat) (results : list json)
    (out : list recipe) :
  (length results <= number)%nat ->
  format_results q number results = Ok out -> (length out <= number)%nat.
Proof.
  intros Hl H. unfold format_results in H. apply bind_Ok in H as [formatted [Hf H]].
  apply for_each_Ok_length in Hf.
  destruct formatted as [|x xs]; injection H as <-.
  - apply fallback_by_title_length.
  - lia.
Qed.

(** X6: whatever the provider answers, the regional search returns at
    most [number] recipes. *)
Theorem regional_at_most_number (net : http) (query : string)
    (region : option string) (number : nat) (l : list recipe) :
  suggest_indonesian_recipes_by_name net query region number = Ok l ->
  (length l <= number)%nat.
Proof.
  unfold suggest_indonesian_recipes_by_name, try_except. cbv zeta.
  match goal with |- match ?m with _ => _ end = _ -> _ => destruct m as [a|e] eqn:E end.
  - intros [= ->]. inv_bind E as resp Hresp. inv_bind E as v Hv.
    inv_bind E as meals Hmeals. inv_bind E as u Hu. inv_bind E as results Hres.
    eapply format_results_length; [|exact E].
    eapply filter_by_region_length; exact Hres.
  - destruct (isinstance_RequestException e); [|discriminate].
    intros [= <-]. apply fallback_by_title_length.
Qed.

Lemma regional_at_most_number_witness :
  (length [fallback_format fallback_soto; fallback_format fallback_gudeg] <= 2)%nat.
Proof.
  apply (regional_at_most_number
           (fun _ => Answered {| status_code := 200;
                                 content := Decoded (JObj [("meals", JNull)]) |})
           "" (Some "Java") 2).
  vm_compute. reflexivity.
Defined.

(** ** From the search to the detail and profile views *)

Lemma fallback_by_title_catalog (q : string) (number : nat) (x : recipe) :
  x ∈ fallback_by_title q number -> exists r, In r fallback_recipes /\ x = fallback_format r.
Proof.
  unfold fallback_by_title. intros H.
  apply (sublist_subseteq _ _ (sublist_take _ _)) in H.
  apply list_elem_of_fmap in H as [r [-> Hr]].
  apply list_elem_of_In, filter_In in Hr as [Hr _]. eauto.
Qed.

Lemma hits_catalog (q rg : string) (number : nat) (x : recipe) :
  x ∈ take number (map fallback_format (hits q rg)) ->
  exists r, In r fallback_recipes /\ x = fallback_format r.
Proof.
  intros H. apply (sublist_subseteq _ _ (sublist_take _ _)) in H.
  apply list_elem_of_fmap in H as [r [-> Hr]]. unfold hits in Hr.
  apply list_elem_of_In, filter_In in Hr as [Hr _].
  apply filter_In in Hr as [Hr _]. eauto.
Qed.

(** A catalog entry of the search is found, by its id, in the catalogs
    of the detail view and of the profile, with the same title,
    image, ingredients and instructions. *)
Lemma catalogs_agree (r : fallback_recipe) :
  In r fallback_recipes ->
  exists d p,
    detail_lookup (fb_id r) = Some d /\ profile_lookup (fb_id r) = Some p
    /\ d_title d = fb_title r /\ d_image d = fb_image r
    /\ d_ingredients d = fb_ingredients r /\ d_instructions d = fb_instructions r
    /\ p_title p = fb_title r /\ p_image p = fb_image r.
Proof.
  intros H. repeat (destruct H as [<- | H];
    [eexists; eexists; repeat split; (vm_compute; reflexivity) |]).
  destruct H.
Qed.

(** X7: every recipe the regional search takes from its catalog (on a
    transport error, or when the provider has nothing to show) can be
    opened: the detail view and the profile find an entry with its id,
    and that entry has its title and image. *)
Theorem fallback_results_resolve (net : http) (query : string)
    (region : option string) (number : nat) (l : list recipe) (x : recipe) :
  let resp := net (TheMealDBSearch (lower (strip query))) in
  resp = TransportError \/ no_usable_results resp = true ->
  suggest_indonesian_recipes_by_name net query region number = Ok l ->
  x ∈ l ->
  recipe_source x = "fallback"
  /\ exists d p,
       detail_lookup (recipe_id x) = Some d
       /\ profile_lookup (recipe_id x) = Some p
       /\ recipe_title x = JStr (d_title d) /\ recipe_image x = JStr (d_image d)
       /\ recipe_title x = JStr (p_title p) /\ recipe_image x = JStr (p_image p).
Proof.
  intros resp Hresp Hl Hx.
  assert (Hcat : exists r, In r fallback_recipes /\ x = fallback_format r).
  { destruct Hresp as [Ht | Hn].
    - rewrite (transport_error_catalog net query region number Ht) in Hl.
      injection Hl as <-.
      eapply fallback_by_title_catalog; exact Hx.
    - destruct (region_filter region) as [rg|] eqn:Hr.
      + rewrite (regional_with_filter net query region number rg Hr Hn) in Hl.
        injection Hl as <-.
        destruct (take number (map fallback_format (hits _ rg))) as [|y ys] eqn:Et.
        * eapply fallback_by_title_catalog; exact Hx.
        * rewrite <- Et in Hx. eapply hits_catalog; exact Hx.
      + rewrite (regional_without_filter net query region number Hr Hn) in Hl.
        injection Hl as <-.
        eapply fallback_by_title_catalog; exact Hx. }
  destruct Hcat as [r [Hr ->]].
  destruct (catalogs_agree r Hr) as [d [p [Hd [Hp [H1 [H2 [_ [_ [H3 H4]]]]]]]]].
  split; [reflexivity|]. exists d, p. cbn [fallback_format recipe_id recipe_title].
  split; [exact Hd|]. split; [exact Hp|].
  assert (Himg : recipe_image (fallback_format r) = JStr (fb_image r)).
  { clear -Hr. repeat (destruct Hr as [<- | Hr]; [reflexivity|]). destruct Hr. }
  rewrite Himg, H1, H2, H3, H4. auto.
Qed.

(** Beef Rendang, returned on a transport error, in the two views. *)
Lemma fallback_results_resolve_witness :
  recipe_source (fallback_format fallback_rendang) = "fallback"
  /\ exists d p,
       detail_lookup (recipe_id (fallback_format fallback_rendang)) = Some d
       /\ profile_lookup (recipe_id (fallback_format fallback_rendang)) = Some p
       /\ recipe_title (fallback_format fallback_rendang) = JStr (d_title d)
       /\ recipe_image (fallback_format fallback_rendang) = JStr (d_image d)
       /\ recipe_title (fallback_format fallback_rendang) = JStr (p_title p)
       /\ recipe_image (fallback_format fallback_rendang) = JStr (p_image p).
Proof.
  apply (fallback_results_resolve (fun _ => TransportError) "rendang" (Some "Java") 5
           [fallback_format fallback_rendang]).
  - left. reflexivity.
  - vm_compute. reflexivity.
  - left.
Defined.

End RegionalFacts.

(* ===================================================================== *)
(** * More facts about recommendations *)
(* ===================================================================== *)

Module RecommendMore.
Import Py Net Providers Recommend PyFacts ProvidersFacts RecommendFacts RegionalSpec RegionalFacts.

Lemma sample_submseteq {A} (rnd : nat -> nat) (k : nat) (population : list A) :
  sample rnd population k ⊆+ population.
Proof.
  revert population. induction k as [|k IH]; intros population; cbn [sample].
  - apply submseteq_nil_l.
  - destruct (population !! _) as [x|] eqn:Hx; [|apply submseteq_nil_l].
    transitivity (x :: delete (rnd k mod length population)%nat population).
    + apply submseteq_skip, IH.
    + apply Permutation_submseteq. symmetry. apply delete_Permutation, Hx.
Qed.

(** X8: [get_random_recipes] returns [min(number, size of the pool)]
    recipes, taken from different positions of the pool: no entry of
    the pool is returned twice. *)
Theorem random_recipes_from_distinct_positions (wd : world) (number : nat)
    (l : list recipe) :
  get_random_recipes wd number = Ok l ->
  exists pool,
    all_recipes wd number = Ok pool
    /\ l ⊆+ pool
    /\ length l = min number (length pool).
Proof.
  unfold get_random_recipes. intros H. apply bind_Ok in H as [pool [Hp H]].
  injection H as <-. exists pool. split; [exact Hp|]. split.
  - apply sample_submseteq.
  - apply sample_length. lia.
Qed.

(** One user recipe and no provider: the pick of one is that recipe. *)
Lemma random_recipes_from_distinct_positions_witness :
  exists pool,
    all_recipes {| net := fun _ => TransportError;
                   user_recipes := [ {| ur_id := 1; ur_title := "Sayur Asem";
                                        ur_image := None; ur_likes := 0; ur_saves := 0 |} ];
                   rnd := fun _ => O |} 1 = Ok pool
    /\ [user_format {| ur_id := 1; ur_title := "Sayur Asem";
                       ur_image := None; ur_likes := 0; ur_saves := 0 |}] ⊆+ pool
    /\ length [user_format {| ur_id := 1; ur_title := "Sayur Asem";
                              ur_image := None; ur_likes := 0; ur_saves := 0 |}]
       = min 1 (length pool).
Proof.
  apply (random_recipes_from_distinct_positions
           {| net := fun _ => TransportError;
              user_recipes := [ {| ur_id := 1; ur_title := "Sayur Asem";
                                   ur_image := None; ur_likes := 0; ur_saves := 0 |} ];
              rnd := fun _ => O |} 1).
  vm_compute. reflexivity.
Defined.





End RecommendMore.

(* ===================================================================== *)
(** * More facts about the interaction ledger *)
(* ===================================================================== *)

Module LedgerMore.
Import Py Recommend Ledger LedgerFacts LedgerSpec.

Lemma matches_key (rq : form) (i : Interaction) :
  matches (current_user rq) (source rq) (recipe rq) (action rq) i = true
  <-> row_key i = toggle_key rq.
Proof.
  unfold matches, toggle_key, row_key. rewrite !andb_true_iff, Z.eqb_eq, !String.eqb_eq. split.
  - intros [[[-> ->] ->] ->]. reflexivity.
  - intros [= -> -> -> ->]. auto.
Qed.

Lemma find_snoc_false {A} (p : A -> bool) (l : list A) (x : A) :
  p x = false -> List.find p (l ++ [x]) = List.find p l.
Proof.
  intros H. induction l as [|y l IH]; simpl; [rewrite H; reflexivity|].
  destruct (p y); [reflexivity | exact IH].
Qed.

Lemma same_image_same_row {K} (g : Interaction -> K) (l : list Interaction)
    (x e : Interaction) :
  NoDup (map g l) -> In x l -> In e l -> g x = g e -> x = e.
Proof.
  induction l as [|y l IH]; simpl; [contradiction|].
  intros Hd Hx He Hid. apply NoDup_cons in Hd as [Hy Hd].
  destruct Hx as [<- | Hx], He as [<- | He]; auto.
  - exfalso. apply Hy. rewrite Hid. apply list_elem_of_In, in_map, He.
  - exfalso. apply Hy. rewrite <- Hid. apply list_elem_of_In, in_map, Hx.
Qed.

Lemma same_id_same_row (l : list Interaction) (x e : Interaction) :
  NoDup (map i_id l) -> In x l -> In e l -> i_id x = i_id e -> x = e.
Proof. apply same_image_same_row. Qed.

(** With distinct primary keys, deleting a row removes that row only. *)
Lemma find_without (p : Interaction -> bool) (l : list Interaction) (e : Interaction) :
  NoDup (map i_id l) -> In e l -> p e = false ->
  List.find p (List.filter (fun i => negb (i_id i =? i_id e)) l) = List.find p l.
Proof.
  intros Hd He Hp.
  assert (H : forall x, In x l -> i_id x = i_id e -> p x = false).
  { intros x Hx Hid. rewrite (same_id_same_row l x e Hd Hx He Hid). exact Hp. }
  clear Hd He. induction l as [|y l IH]; simpl; [reflexivity|].
  destruct (Z.eqb_spec (i_id y) (i_id e)) as [E|E]; simpl.
  - rewrite (H y (or_introl eq_refl) E). apply IH. intros x Hx. apply H. right. exact Hx.
  - destruct (p y); [reflexivity|]. apply IH. intros x Hx. apply H. right. exact Hx.
Qed.

Lemma toggled_other_key (rq rq' : form) (d : database) :
  NoDup (map i_id (interactions d)) ->
  toggle_key rq' <> toggle_key rq ->
  first_interaction (toggled rq d) (current_user rq') (source rq') (recipe rq') (action rq')
  = first_interaction d (current_user rq') (source rq') (recipe rq') (action rq').
Proof.
  intros Hd Hk. unfold first_interaction at 1.
  destruct (first_interaction d (current_user rq) (source rq) (recipe rq) (action rq))
    as [e|] eqn:E.
  - rewrite (toggled_active_interactions rq d e E).
    apply find_some in E as [He Hm]. apply find_without; [exact Hd | exact He|].
    apply not_true_is_false. intros Hm'.
    apply matches_key in Hm. apply matches_key in Hm'. congruence.
  - rewrite toggled_absent_interactions by (apply active_false; exact E).
    apply find_snoc_false. apply not_true_is_false. intros Hm'.
    apply matches_key in Hm'. apply Hk. rewrite <- Hm'. reflexivity.
Qed.

(** X10: a toggle changes the state of its own key only: for any other
    (user, source, recipe, action) the interaction found before is the
    one found after, whatever faults the request meets. *)
Theorem toggle_leaves_other_keys (f : faults) (st : state) (rq rq' : form) :
  NoDup (map i_id (interactions (db st))) ->
  toggle_key rq' <> toggle_key rq ->
  first_interaction (db (interact f st rq).1)
    (current_user rq') (source rq') (recipe rq') (action rq')
  = first_interaction (db st) (current_user rq') (source rq') (recipe rq') (action rq')
  /\ active (db (interact f st rq).1) rq' = active (db st) rq'.
Proof.
  intros Hd Hk.
  assert (H : first_interaction (db (interact f st rq).1)
                (current_user rq') (source rq') (recipe rq') (action rq')
              = first_interaction (db st)
                  (current_user rq') (source rq') (recipe rq') (action rq')).
  { destruct (interact_db f st rq) as [-> | ->];
      [reflexivity | apply toggled_other_key; assumption]. }
  split; [exact H|]. unfold active. rewrite H. reflexivity.
Qed.

(** ** Invariants of the two tables *)

Lemma write_recipe_ids (r' : UserRecipe) (rows : list UserRecipe) :
  map ur_id (map (fun x => if ur_id x =? ur_id r' then r' else x) rows) = map ur_id rows.
Proof.
  induction rows as [|x rows IH]; simpl; [reflexivity|]. rewrite IH. f_equal.
  destruct (Z.eqb_spec (ur_id x) (ur_id r')); congruence.
Qed.

Lemma toggled_recipes (rq : form) (d : database) :
  recipes (toggled rq d)
  = match (if String.eqb (source rq) "user" then UserRecipe_get d (recipe rq) else None) with
    | Some r0 =>
        let r0' := if active d rq then undo_counter (action rq) r0
                   else do_counter (action rq) r0 in
        map (fun x => if ur_id x =? ur_id r0' then r0' else x) (recipes d)
    | None => recipes d
    end.
Proof.
  unfold toggled, active.
  destruct (first_interaction d _ _ _ _) as [e|];
    destruct (if String.eqb (source rq) "user" then _ else _); reflexivity.
Qed.

Lemma toggled_keys_unique (rq : form) (d : database) :
  keys_unique d -> keys_unique (toggled rq d).
Proof.
  intros [Hi Hr]. split.
  - destruct (first_interaction d (current_user rq) (source rq) (recipe rq) (action rq))
      as [e|] eqn:E.
    + rewrite (toggled_active_interactions rq d e E).
      apply (sublist_NoDup _ (map i_id (interactions d))); [exact Hi|].
      apply fmap_sublist. clear. induction (interactions d) as [|y l IH]; simpl.
      * constructor.
      * destruct (negb _); [apply sublist_skip | apply sublist_cons]; exact IH.
    + rewrite toggled_absent_interactions by (apply active_false; exact E).
      rewrite map_app. apply NoDup_app. split; [exact Hi|].
      split; [|apply NoDup_singleton].
      intros k Hk Hn. apply list_elem_of_singleton in Hn. subst k.
      apply list_elem_of_In, in_map_iff in Hk as [i [Hid Hin]].
      apply next_id_fresh in Hin. simpl in Hid. lia.
  - rewrite toggled_recipes.
    destruct (if String.eqb (source rq) "user" then _ else _); [|exact Hr].
    cbv zeta. rewrite write_recipe_ids. exact Hr.
Qed.

Lemma filter_sublist {A} (p : A -> bool) (l : list A) : List.filter p l `sublist_of` l.
Proof.
  induction l as [|y l IH]; simpl; [constructor|].
  destruct (p y); [apply sublist_skip | apply sublist_cons]; exact IH.
Qed.

Lemma toggled_one_per_key (rq : form) (d : database) :
  one_per_key d -> one_per_key (toggled rq d).
Proof.
  unfold one_per_key. intros Hk.
  destruct (first_interaction d (current_user rq) (source rq) (recipe rq) (action rq))
    as [e|] eqn:E.
  - rewrite (toggled_active_interactions rq d e E).
    apply (sublist_NoDup _ (map row_key (interactions d))); [exact Hk|].
    apply fmap_sublist, filter_sublist.
  - rewrite toggled_absent_interactions by (apply active_false; exact E).
    rewrite map_app. apply NoDup_app. split; [exact Hk|].
    split; [|apply NoDup_singleton].
    intros k Hin Hn. apply list_elem_of_singleton in Hn. subst k.
    apply list_elem_of_In, in_map_iff in Hin as [i [Hi Hin]].
    assert (Hm : matches (current_user rq) (source rq) (recipe rq) (action rq) i = true)
      by (apply matches_key; exact Hi).
    rewrite (find_none _ _ E i Hin) in Hm. discriminate.
Qed.

(** X11: the tables stay well formed: a request never gives two rows of
    a table the same primary key, and never leaves two interactions
    with the same (user, source, recipe, action). *)
Theorem ledger_stays_well_formed (f : faults) (st : state) (rq : form) :
  keys_unique (db st) -> one_per_key (db st) ->
  keys_unique (db (interact f st rq).1) /\ one_per_key (db (interact f st rq).1).
Proof.
  intros H1 H2. destruct (interact_db f st rq) as [-> | ->]; [auto|].
  split; [apply toggled_keys_unique, H1 | apply toggled_one_per_key, H2].
Qed.

Lemma filter_id_absent (l : list Interaction) (n : Z) :
  ~ In n (map i_id l) -> List.filter (fun i => negb (i_id i =? n)) l = l.
Proof.
  induction l as [|y l IH]; simpl; [reflexivity|]. intros H.
  destruct (Z.eqb_spec (i_id y) n) as [E|E]; simpl.
  - exfalso. apply H. left. exact E.
  - rewrite IH; [reflexivity|]. intros Hn. apply H. right. exact Hn.
Qed.

Lemma count_without (p : Interaction -> bool) (l : list Interaction) (e : Interaction) :
  NoDup (map i_id l) -> In e l ->
  Z.of_nat (length (List.filter p (List.filter (fun i => negb (i_id i =? i_id e)) l)))
  = Z.of_nat (length (List.filter p l)) - (if p e then 1 else 0).
Proof.
  induction l as [|y l IH]; simpl; [contradiction|].
  intros Hd He. apply NoDup_cons in Hd as [Hy Hd].
  destruct (Z.eqb_spec (i_id y) (i_id e)) as [E|E]; simpl.
  - assert (y = e) as ->.
    { destruct He as [He|He]; [exact He|]. exfalso. apply Hy. rewrite E.
      apply list_elem_of_In, in_map, He. }
    rewrite filter_id_absent by (intros Hn; apply Hy, list_elem_of_In, Hn).
    destruct (p e); simpl; lia.
  - destruct He as [He|He]; [congruence|]. specialize (IH Hd He).
    destruct (p y); simpl; lia.
Qed.

(** What a toggle does to the number of interactions of a recipe. *)
Lemma count_toggled (rq : form) (d : database) (src rid kind : string) :
  NoDup (map i_id (interactions d)) ->
  count_interactions (toggled rq d) src rid kind
  = count_interactions d src rid kind
    + (if (String.eqb (source rq) src && String.eqb (recipe rq) rid
           && String.eqb (action rq) kind)%bool
       then (if active d rq then -1 else 1) else 0).
Proof.
  intros Hd. unfold count_interactions, active.
  destruct (first_interaction d (current_user rq) (source rq) (recipe rq) (action rq))
    as [e|] eqn:E.
  - rewrite (toggled_active_interactions rq d e E).
    rewrite bool_decide_true by eauto.
    apply find_some in E as [He Hm].
    rewrite count_without by assumption.
    apply matches_key in Hm. injection Hm as _ -> -> ->.
    destruct (_ && _)%bool; lia.
  - rewrite toggled_absent_interactions by (apply active_false; exact E).
    rewrite bool_decide_false by (intros [x Hx]; discriminate).
    rewrite List.filter_app, length_app. cbn [List.filter new_row recipe_source
      Ledger.recipe_id interaction_type].
    destruct (_ && _)%bool; simpl; lia.
Qed.




(** ** What each exit leaves behind *)

Lemma finish_session (f : faults) (st : state) (rq : form) :
  session (finish f {| db := db st;
                       session := <[session_key rq := JBool true]> (session st) |} rq).1
  = delete (session_key rq) (session st).
Proof.
  unfold finish. destruct (try_except_rollback f rq _) as [u r]. simpl.
  apply delete_insert_eq.
Qed.

(** X13: a storage error after the commit is reported as a failure
    although the toggle is stored: the caller gets the generic error,
    the database holds the toggled state. *)
Theorem failure_after_commit_keeps_toggle (f : faults) (st : state) (rq : form) :
  guard_set (session st) (session_key rq) = false ->
  query_fails f = false -> commit_fails f = false -> readback_fails f = true ->
  (source rq = "user" -> is_Some (UserRecipe_get (db st) (recipe rq))) ->
  interact f st rq
  = ({| db := toggled rq (db st); session := delete (session_key rq) (session st) |},
     ServerError).
Proof.
  intros Hg Hq Hc Hb Hr. unfold interact. rewrite enter_clear by exact Hg.
  unfold finish, try_except_rollback, try_body, commit, toggled. simpl.
  rewrite Hq, Hc, Hb.
  destruct (String.eqb_spec (source rq) "user") as [E|E]; simpl.
  - destruct (Hr E) as [r Hget]. rewrite Hget. simpl.
    rewrite delete_insert_eq. reflexivity.
  - rewrite delete_insert_eq. reflexivity.
Qed.


(** X15: for a provider recipe the answer of a like reports the ledger
    after the toggle: the likes are one more than before when the like
    was absent and one less when it was active, the saves and the
    user's own save are as before, and the user's like is flipped. *)
Theorem like_reports_the_new_count (st : state) (rq : form) :
  guard_set (session st) (session_key rq) = false ->
  keys_unique (db st) -> one_per_key (db st) ->
  source rq <> "user" -> action rq = "like" ->
  (interact no_faults st rq).2
  = Counts
      (count_interactions (db st) (source rq) (recipe rq) "like"
       + (if active (db st) rq then -1 else 1))
      (count_interactions (db st) (source rq) (recipe rq) "save")
      (negb (active (db st) rq))
      (bool_decide (is_Some (first_interaction (db st) (current_user rq)
                               (source rq) (recipe rq) "save"))).
Proof.
  intros Hg [Hd _] Hk Hs Ha. unfold interact. rewrite enter_clear by exact Hg.
  unfold finish, try_except_rollback, try_body, commit. simpl.
  apply String.eqb_neq in Hs. rewrite Hs. simpl.
  assert (Ht : queue_toggle rq
                 (first_interaction (db st) (current_user rq) (source rq)
                    (recipe rq) (action rq)) None (db st) = toggled rq (db st))
    by (unfold toggled; rewrite Hs; reflexivity).
  rewrite Ht. unfold read_counts. rewrite Hs.
  rewrite !count_toggled by exact Hd. rewrite Ha, !String.eqb_refl. simpl.
  rewrite Z.add_0_r. f_equal.
  - rewrite <- Ha. unfold active.
    destruct (first_interaction (db st) (current_user rq) (source rq) (recipe rq)
                (action rq)) as [e|] eqn:E.
    + rewrite (bool_decide_true (is_Some (Some e))) by eauto. simpl.
      apply bool_decide_eq_false. intros [x Hx].
      unfold first_interaction in Hx.
      rewrite (toggled_active_interactions rq (db st) e E) in Hx.
      apply find_some in Hx as [Hin Hm]. apply filter_In in Hin as [Hin Hne].
      apply find_some in E as [He Hme].
      apply matches_key in Hm. apply matches_key in Hme.
      assert (x = e) as ->
        by (apply (same_image_same_row row_key (interactions (db st)));
            [exact Hk | exact Hin | exact He | congruence]).
      rewrite Z.eqb_refl in Hne. discriminate.
    + rewrite (bool_decide_false (is_Some None)) by (intros [x Hx]; discriminate). simpl.
      apply bool_decide_eq_true.
      rewrite toggled_absent_first by (apply active_false; exact E). eauto.
  - assert (Hne : toggle_key {| current_user := current_user rq; source := source rq;
                            recipe := recipe rq; action := "save" |} <> toggle_key rq)
      by (unfold toggle_key; rewrite Ha; simpl; intros [=]).
    pose proof (toggled_other_key rq _ (db st) Hd Hne) as H. simpl in H.
    rewrite H. reflexivity.
Qed.

(** ** The theorems on the small ledger *)

Lemma small_ledger_keys_unique : keys_unique (db small_ledger).
Proof.
  split; simpl.
  - apply NoDup_cons. split; [|apply NoDup_singleton].
    intros H. apply list_elem_of_singleton in H. discriminate.
  - apply NoDup_singleton.
Qed.

Lemma small_ledger_one_per_key : one_per_key (db small_ledger).
Proof.
  unfold one_per_key. simpl.
  apply NoDup_cons. split; [|apply NoDup_singleton].
  intros H. apply list_elem_of_singleton in H. discriminate.
Qed.


Lemma toggle_leaves_other_keys_witness :
  active (db (interact no_faults small_ledger (like_of 1 "fallback" "soto")).1)
         (like_of 2 "fallback" "soto")
  = active (db small_ledger) (like_of 2 "fallback" "soto").
Proof.
  refine (proj2 (toggle_leaves_other_keys no_faults small_ledger
                   (like_of 1 "fallback" "soto") (like_of 2 "fallback" "soto") _ _)).
  - exact (proj1 small_ledger_keys_unique).
  - discriminate.
Defined.

Lemma ledger_stays_well_formed_witness :
  keys_unique (db (interact no_faults small_ledger (like_of 1 "user" "7")).1)
  /\ one_per_key (db (interact no_faults small_ledger (like_of 1 "user" "7")).1).
Proof.
  apply (ledger_stays_well_formed no_faults small_ledger (like_of 1 "user" "7")).
  - exact small_ledger_keys_unique.
  - exact small_ledger_one_per_key.
Defined.


Lemma failure_after_commit_keeps_toggle_witness :
  interact {| query_fails := false; commit_fails := false; readback_fails := true |}
           small_ledger (like_of 1 "user" "7")
  = ({| db := toggled (like_of 1 "user" "7") (db small_ledger);
        session := delete (session_key (like_of 1 "user" "7")) (session small_ledger) |},
     ServerError).
Proof.
  apply (failure_after_commit_keeps_toggle
           {| query_fails := false; commit_fails := false; readback_fails := true |}
           small_ledger (like_of 1 "user" "7")); try reflexivity.
  intros _. vm_compute. eauto.
Defined.


Lemma like_reports_the_new_count_witness :
  (interact no_faults small_ledger (like_of 1 "fallback" "soto")).2
  = Counts
      (count_interactions (db small_ledger) "fallback" "soto" "like"
       + (if active (db small_ledger) (like_of 1 "fallback" "soto") then -1 else 1))
      (count_interactions (db small_ledger) "fallback" "soto" "save")
      (negb (active (db small_ledger) (like_of 1 "fallback" "soto")))
      (bool_decide (is_Some (first_interaction (db small_ledger) 1
                               "fallback" "soto" "save"))).
Proof.
  apply (like_reports_the_new_count small_ledger (like_of 1 "fallback" "soto")).
  - reflexivity.
  - exact small_ledger_keys_unique.
  - exact small_ledger_one_per_key.
  - discriminate.
  - reflexivity.
Defined.

Example small_ledger_like :
  (interact no_faults small_ledger (like_of 1 "fallback" "soto")).2
  = Counts 2 0 true false.
Proof. vm_compute. reflexivity. Qed.

End LedgerMore.

(* ===================================================================== *)
(** * Facts about the ingredient lines *)
(* ===================================================================== *)

Module DetailFacts.
Import Py PyFacts Detail.











End DetailFacts.

(* ===================================================================== *)
(** * Facts about the weather clients *)
(* ===================================================================== *)

Module WeatherFacts.
Import Py Net Providers PyFacts Weather.

(** X17: both weather clients return [None] on a transport error and on
    a non-200 answer; on a 200 answer that has the four entries they
    return them, [get_weather] under the city that was asked for; an
    answer whose [weather] list is empty raises [IndexError], which no
    handler catches. *)
Theorem weather_clients_outcomes (net : weather_http) (lat lon city : json) :
  (failed (net (ByCoords lat lon)) = true ->
     get_weather_by_coords net lat lon = Returned None)
  /\ (failed (net (ByCity city)) = true -> get_weather net city = Returned None)
  /\ (forall r kvs w0 ws m description main temp,
        net (ByCity city) = Answered r -> status_code r = 200 ->
        content r = Decoded (JObj kvs) ->
        assoc "weather" kvs = Some (JArr (JObj w0 :: ws)) ->
        assoc "description" w0 = Some description -> assoc "main" w0 = Some main ->
        assoc "main" kvs = Some (JObj m) -> assoc "temp" m = Some temp ->
        get_weather net city
        = Returned (Some {| w_city := city; w_condition := description;
                            w_temp := temp; w_weather_main := main |}))
  /\ (forall r kvs,
        net (ByCity city) = Answered r -> status_code r = 200 ->
        content r = Decoded (JObj kvs) -> assoc "weather" kvs = Some (JArr []) ->
        get_weather net city = Raised IndexError).
Proof.
  split; [|split; [|split]].
  - unfold get_weather_by_coords, weather_get, failed.
    destruct (net (ByCoords lat lon)) as [r|]; simpl; [|reflexivity].
    intros ->. reflexivity.
  - unfold get_weather, weather_get, failed.
    destruct (net (ByCity city)) as [r|]; simpl; [|reflexivity].
    intros ->. reflexivity.
  - intros r kvs w0 ws m description main temp Hn Hs Hc Hw Hd Hm Hmm Ht.
    unfold get_weather, weather_get, response_json, read_conditions.
    rewrite Hn. simpl. rewrite Hs, Hc. simpl. rewrite Hw. simpl. rewrite Hd. simpl.
    rewrite Hmm. simpl. rewrite Ht. simpl. rewrite Hm. reflexivity.
  - intros r kvs Hn Hs Hc Hw.
    unfold get_weather, weather_get, response_json, read_conditions.
    rewrite Hn. simpl. rewrite Hs, Hc. simpl. rewrite Hw. reflexivity.
Qed.

Lemma weather_clients_outcomes_witness :
  get_weather (fun _ => TransportError) (JStr "Jakarta") = Returned None
  /\ get_weather
       (fun _ => Answered {| status_code := 200;
                             content := Decoded (JObj [("weather", JArr [])]) |})
       (JStr "Jakarta") = Raised IndexError.
Proof.
  split.
  - apply (proj1 (proj2 (weather_clients_outcomes (fun _ => TransportError)
                           JNull JNull (JStr "Jakarta")))).
    reflexivity.
  - apply (proj2 (proj2 (proj2 (weather_clients_outcomes
             (fun _ => Answered {| status_code := 200;
                                   content := Decoded (JObj [("weather", JArr [])]) |})
             JNull JNull (JStr "Jakarta"))))
           {| status_code := 200; content := Decoded (JObj [("weather", JArr [])]) |}
           [("weather", JArr [])]); reflexivity.
Defined.

(** X18: the route answers "bad request" exactly when the latitude or the
    longitude of the body is missing or falsy, which takes in the
    number 0: a point on the equator or on the prime meridian is turned
    away, and the provider is not asked. *)
Theorem coordinates_must_be_truthy (net : weather_http) (kvs : list (string * json)) :
  weather_by_coords net (JObj kvs) = Returned BadRequest
  <-> (truthy (default JNull (assoc "lat" kvs)) = false
       \/ truthy (default JNull (assoc "lon" kvs)) = false).
Proof.
  unfold weather_by_coords. simpl.
  destruct (truthy (default JNull (assoc "lat" kvs))) eqn:E1;
    destruct (truthy (default JNull (assoc "lon" kvs))) eqn:E2; simpl;
    try (split; [auto | reflexivity]).
  split; [|intros [H|H]; discriminate].
  destruct (get_weather_by_coords net _ _) as [[w|]|e]; simpl; discriminate.
Qed.

Lemma coordinates_must_be_truthy_witness :
  weather_by_coords (fun _ => TransportError)
    (JObj [("lat", JNum 0); ("lon", JNum 107)]) = Returned BadRequest.
Proof.
  apply (proj2 (coordinates_must_be_truthy (fun _ => TransportError)
                  [("lat", JNum 0); ("lon", JNum 107)])).
  left. reflexivity.
Defined.

End WeatherFacts.

(* ===================================================================== *)
(** * Facts about the suggestion endpoint *)
(* ===================================================================== *)

Module SuggestFacts.
Import Py Net Providers Recommend Related History PyFacts Suggest.

Lemma like_percent (t : string) : like "%" t = true.
Proof. induction t as [|c t IH]; [reflexivity|]. simpl in *. exact IH. Qed.

Lemma prefix_cons (c d : ascii) (q t : string) :
  String.prefix (String c q) (String d t) = (Ascii.eqb c d && String.prefix q t)%bool.
Proof.
  simpl. destruct (ascii_dec c d) as [->|Hne].
  - rewrite Ascii.eqb_refl. reflexivity.
  - apply Ascii.eqb_neq in Hne. rewrite Hne. reflexivity.
Qed.

Lemma prefix_of_empty (q : string) :
  String.prefix q "" = match q with EmptyString => true | _ => false end.
Proof. destruct q; reflexivity. Qed.

(** A pattern without wildcards followed by [%] asks for a prefix. *)
Lemma like_prefix (q t : string) :
  wildcard_free q = true -> like (q ++ "%") t = String.prefix q t.
Proof.
  revert t. induction q as [|c q IH]; intros t Hq.
  - rewrite append_nil, like_percent. destruct t; reflexivity.
  - cbn [wildcard_free] in Hq. apply andb_true_iff in Hq as [Hc Hq].
    apply andb_true_iff in Hc as [Hp Hu].
    apply negb_true_iff in Hp. apply negb_true_iff in Hu.
    rewrite append_cons. cbn [like]. rewrite Hp, Hu.
    destruct t as [|d t]; [reflexivity|].
    rewrite prefix_cons, IH by exact Hq. reflexivity.
Qed.

Lemma like_contains (q t : string) :
  wildcard_free q = true -> like ("%" ++ q ++ "%") t = str_in q t.
Proof.
  intros Hq. change ("%" ++ q ++ "%") with (String "%" (q ++ "%")).
  induction t as [|d t IH].
  - cbn [like Ascii.eqb Bool.eqb str_in]. simpl. rewrite like_prefix by exact Hq.
    apply orb_false_r.
  - cbn [like str_in] in *. simpl in *. rewrite like_prefix by exact Hq.
    rewrite IH. reflexivity.
Qed.

Lemma lower_ascii_not_wildcard (c : ascii) :
  Ascii.eqb (lower_ascii c) "%" = Ascii.eqb c "%"
  /\ Ascii.eqb (lower_ascii c) "_" = Ascii.eqb c "_".
Proof. destruct c as [[] [] [] [] [] [] [] []]; split; reflexivity. Qed.

Lemma wildcard_free_lower (q : string) : wildcard_free (lower q) = wildcard_free q.
Proof.
  induction q as [|c q IH]; [reflexivity|]. simpl.
  destruct (lower_ascii_not_wildcard c) as [-> ->]. rewrite IH. reflexivity.
Qed.

(** X19: for a query without [%] and [_] the title filter on user recipes
    is the case-insensitive substring test. *)
Theorem ilike_is_substring_test (query title : string) :
  wildcard_free query = true ->
  ilike ("%" ++ query ++ "%") title = str_in (lower query) (lower title).
Proof.
  intros Hq. unfold ilike. rewrite !lower_app. change (lower "%") with "%".
  apply like_contains. rewrite wildcard_free_lower. exact Hq.
Qed.

Lemma ilike_is_substring_test_witness :
  ilike ("%" ++ "SOTO" ++ "%") "Soto Ayam" = str_in (lower "SOTO") (lower "Soto Ayam").
Proof. apply (ilike_is_substring_test "SOTO" "Soto Ayam"). reflexivity. Defined.

Example like_examples :
  like "%a_c%" "xxabcxx" = true /\ like "a%" "b" = false /\ like "_" "" = false
  /\ split_comma "egg,,rice" = ["egg"; ""; "rice"] /\ split_comma "" = [""].
Proof. repeat split. Qed.

Lemma split_comma_cons (s : string) : exists h t, split_comma s = h :: t.
Proof.
  destruct s as [|c s]; [eauto|]. cbn [split_comma].
  destruct (Ascii.eqb c ","); [eauto|]. destruct (split_comma s); eauto.
Qed.

Lemma concat_cons (sep h k : string) (t : list string) :
  String.concat sep (h :: k :: t) = h ++ sep ++ String.concat sep (k :: t).
Proof. reflexivity. Qed.

Lemma concat_push (c : ascii) (h : string) (t : list string) :
  String.concat "," (String c h :: t) = String c (String.concat "," (h :: t)).
Proof. destruct t as [|k t]; [reflexivity|]. rewrite !concat_cons. reflexivity. Qed.

Lemma join_split (s : string) : String.concat "," (split_comma s) = s.
Proof.
  induction s as [|c s IH]; [reflexivity|]. cbn [split_comma].
  destruct (Ascii.eqb_spec c ",") as [->|Hne].
  - destruct (split_comma_cons s) as [h [t E]]. rewrite E in *.
    rewrite concat_cons, IH. reflexivity.
  - destruct (split_comma_cons s) as [h [t E]]. rewrite E in *.
    rewrite concat_push, IH. reflexivity.
Qed.

(** X20: splitting the query at its commas and joining the parts with
    commas gives the query back, so the ingredients search asks the
    provider for the text as it was typed: its answer depends on the
    network only through the request that carries that text. *)
Theorem ingredients_request_is_the_query (net1 net2 : http) (a : suggest_args) :
  String.concat "," (split_comma (a_query a)) = a_query a
  /\ (a_cuisine a = "western" -> a_type a = "ingredients" ->
      net1 (SpoonacularFindByIngredients (a_query a) 5
              (only_if_truthy (a_max_time a)) (only_if_truthy (a_diet a)))
      = net2 (SpoonacularFindByIngredients (a_query a) 5
                (only_if_truthy (a_max_time a)) (only_if_truthy (a_diet a))) ->
      provider_recipes net1 a = provider_recipes net2 a).
Proof.
  split; [apply join_split|]. intros Hc Ht Hn.
  unfold provider_recipes. rewrite Hc, Ht. simpl.
  unfold suggest_western_recipes_by_ingredients, requests_get.
  rewrite join_split, Hn. reflexivity.
Qed.

Lemma ingredients_request_is_the_query_witness :
  provider_recipes (fun _ => TransportError)
    {| a_cuisine := "western"; a_type := "ingredients"; a_query := "egg,rice";
       a_region := "All Regions"; a_max_time := None; a_diet := None |}
  = provider_recipes
      (fun rq => match rq with
                 | SpoonacularFindByIngredients "egg,rice" _ _ _ => TransportError
                 | _ => Answered {| status_code := 200; content := Decoded (JArr []) |}
                 end)
      {| a_cuisine := "western"; a_type := "ingredients"; a_query := "egg,rice";
         a_region := "All Regions"; a_max_time := None; a_diet := None |}.
Proof.
  apply (proj2 (ingredients_request_is_the_query _ _ _)); reflexivity.
Defined.

Lemma user_title_search_spec (rows : list UserRecipe) (query : string) :
  (length (user_title_search rows query) <= 5)%nat
  /\ Forall (fun x => recipe_source x = "user") (user_title_search rows query)
  /\ (wildcard_free query = true ->
      Forall (fun x => exists t, recipe_title x = JStr t
                                 /\ str_in (lower query) (lower t) = true)
             (user_title_search rows query)).
Proof.
  unfold user_title_search. split; [|split].
  - rewrite length_map, length_take. lia.
  - apply Forall_fmap, Forall_forall. intros r _. reflexivity.
  - intros Hq. apply Forall_fmap, Forall_take, List.Forall_forall.
    intros r Hr. apply filter_In in Hr as [_ Hr]. exists (ur_title r).
    split; [reflexivity|]. unfold ilike in Hr. rewrite !lower_app in Hr.
    change (lower "%") with "%" in Hr.
    rewrite like_contains in Hr by (rewrite wildcard_free_lower; exact Hq).
    exact Hr.
Qed.

(** X21: without a query and without a region the endpoint asks for one
    and touches neither the history nor a provider.  Otherwise its
    answer is the provider's recipes followed by at most five user
    recipes, whose titles contain the query (case-insensitively, for a
    query without wildcards); a cuisine that is neither "western" nor
    "indonesian" gets the user recipes only. *)
Theorem suggest_answer (wd : world) (db : store) (a : suggest_args) :
  (a_query a = "" -> a_region a = "" \/ a_region a = "All Regions" ->
   suggest wd db a = (db, Ok PleaseProvide))
  /\ (forall l, (suggest wd db a).2 = Ok (Recipes l) ->
        exists provided mine,
          l = (provided ++ mine)%list
          /\ provider_recipes (net wd) a = Ok provided
          /\ (length mine <= 5)%nat
          /\ Forall (fun x => recipe_source x = "user") mine
          /\ (wildcard_free (a_query a) = true ->
              Forall (fun x => exists t, recipe_title x = JStr t
                                         /\ str_in (lower (a_query a)) (lower t) = true)
                     mine))
  /\ (a_cuisine a <> "western" -> a_cuisine a <> "indonesian" ->
      provider_recipes (net wd) a = Ok []).
Proof.
  split; [|split].
  - intros Hq Hr. unfold suggest, log_search. rewrite Hq. simpl.
    destruct Hr as [-> | ->]; reflexivity.
  - intros l. unfold suggest.
    destruct (_ && _)%bool; [discriminate|]. cbn [snd].
    intros H. apply bind_Ok in H as [provided [Hp H]]. injection H as <-.
    exists provided, (user_title_search (user_recipes wd) (a_query a)).
    split; [reflexivity|]. split; [exact Hp|]. apply user_title_search_spec.
  - intros H1 H2. unfold provider_recipes.
    apply String.eqb_neq in H1. apply String.eqb_neq in H2. rewrite H1, H2. reflexivity.
Qed.

Lemma suggest_answer_witness :
  suggest {| net := fun _ => TransportError; user_recipes := []; rnd := fun _ => O |}
          (Rows [])
          {| a_cuisine := "western"; a_type := "name"; a_query := "";
             a_region := "All Regions"; a_max_time := None; a_diet := None |}
  = (Rows [], Ok PleaseProvide).
Proof.
  apply (proj1 (suggest_answer _ _ _)); [reflexivity | right; reflexivity].
Defined.

End SuggestFacts.
